(** * hasura_mcp: the schema-reflection and safe-query core, embedded in Rocq

    The TypeScript tools of the repository are embedded shallowly:
    - JavaScript strings are [string]s whose characters are code units in the
      8-bit (Latin-1) range, for which [trim] and [toLowerCase] are given in
      full below;
    - parsed JSON is the inductive type [JSON]; an object is the list of its
      own enumerable properties in enumeration order (keys are unique);
    - the injected request function [makeGqlRequest] is an oracle
      [Backend]; every invocation is recorded in the [World], so "before any
      network call" is the statement that the recorded calls did not grow;
    - [throw], [try]/[catch] and the mutable module variable
      [introspectionSchema] are threaded through the monad [M]. *)

From Stdlib Require Import String Ascii List ZArith Lia Bool.
From stdpp Require Import base list strings gmap pretty.

Set Warnings "-register-all".

Open Scope string_scope.

(** ** JavaScript values and built-ins used by the tools *)

Module Js.

(** [WhiteSpace] and [LineTerminator] code units below 256, the characters
    removed by [String.prototype.trim]. *)
Definition isWhiteSpace (c : ascii) : bool :=
  match nat_of_ascii c with
  | 9 | 10 | 11 | 12 | 13 | 32 | 160 => true
  | _ => false
  end.

Fixpoint trimStart (s : string) : string :=
  match s with
  | EmptyString => EmptyString
  | String c r => if isWhiteSpace c then trimStart r else s
  end.

Fixpoint trimEnd (s : string) : string :=
  match s with
  | EmptyString => EmptyString
  | String c r =>
      match trimEnd r with
      | EmptyString => if isWhiteSpace c then EmptyString else String c EmptyString
      | r' => String c r'
      end
  end.

Definition trim (s : string) : string := trimEnd (trimStart s).

(** Unicode lower-casing on the Latin-1 range: [A-Z] and the accented
    capitals U+00C0..U+00DE (without the multiplication sign U+00D7). *)
Definition toLowerChar (c : ascii) : ascii :=
  let n := nat_of_ascii c in
  if (((65 <=? n) && (n <=? 90))
      || ((192 <=? n) && (n <=? 222) && negb (n =? 215)))%nat
  then ascii_of_nat (n + 32) else c.

Fixpoint toLowerCase (s : string) : string :=
  match s with
  | EmptyString => EmptyString
  | String c r => String (toLowerChar c) (toLowerCase r)
  end.

Definition startsWith (s searchString : string) : bool :=
  String.prefix searchString s.

(** [s.endsWith(searchString)]: some tail of [s] is [searchString]. *)
Fixpoint endsWith (s searchString : string) : bool :=
  String.eqb s searchString
  || match s with
     | EmptyString => false
     | String _ r => endsWith r searchString
     end.

(** [Array.prototype.join] on an array of strings. *)
Fixpoint join (sep : string) (l : list string) : string :=
  match l with
  | [] => ""
  | [x] => x
  | x :: r => x ++ sep ++ join sep r
  end.

(** Template-literal rendering of a non-negative integer. *)
Definition showNat (n : nat) : string := pretty n.

Inductive JSON : Type :=
| JNull
| JBool (b : bool)
| JNumber (n : Z)
| JString (s : string)
| JArray (items : list JSON)
| JObject (members : list (string * JSON)).

(** ToBoolean on a JSON value. *)
Definition truthy (v : JSON) : bool :=
  match v with
  | JNull => false
  | JBool b => b
  | JNumber n => negb (n =? 0)%Z
  | JString s => negb (String.eqb s "")
  | JArray _ | JObject _ => true
  end.

Fixpoint lookupKey (key : string) (members : list (string * JSON)) : option JSON :=
  match members with
  | [] => None
  | (k, v) :: r => if String.eqb k key then Some v else lookupKey key r
  end.

(** [obj[key]] for a key that is not an array index or a built-in
    property name: [None] is [undefined]. *)
Definition getProp (v : JSON) (key : string) : option JSON :=
  match v with
  | JObject members => lookupKey key members
  | _ => None
  end.

(** [obj[key] = v] on an ordinary object and a key that is not
    integer-like: an existing property keeps its position, a new one is
    added last. *)
Fixpoint setKey (key : string) (v : JSON) (members : list (string * JSON))
  : list (string * JSON) :=
  match members with
  | [] => [(key, v)]
  | (k, w) :: r => if String.eqb k key then (k, v) :: r else (k, w) :: setKey key v r
  end.

Fixpoint indexed {A : Type} (i : nat) (l : list A) : list (string * A) :=
  match l with
  | [] => []
  | x :: r => (showNat i, x) :: indexed (S i) r
  end.

Definition chars (s : string) : list JSON :=
  map (fun c => JString (String c EmptyString)) (list_ascii_of_string s).

(** Own enumerable properties copied by object spread [{...v}]. *)
Definition spread (v : JSON) : list (string * JSON) :=
  match v with
  | JObject members => members
  | JArray items => indexed 0 items
  | JString s => indexed 0 (chars s)
  | JNull | JBool _ | JNumber _ => []
  end.

Definition keys (members : list (string * JSON)) : list string := map fst members.

Inductive JsError : Type :=
| Error (message : string)
| TypeError (message : string)
| ClientError (errors : option (list string)) (message : string).

Definition message (e : JsError) : string :=
  match e with
  | Error m | TypeError m | ClientError _ m => m
  end.

End Js.

Import Js.

(** ** Introspection data (the [graphql] package's [Introspection*] types) *)

Inductive TypeKind : Type :=
| SCALAR | OBJECT | INTERFACE | UNION | ENUM | INPUT_OBJECT | LIST | NON_NULL.

Definition TypeKind_eqb (a b : TypeKind) : bool :=
  match a, b with
  | SCALAR, SCALAR | OBJECT, OBJECT | INTERFACE, INTERFACE | UNION, UNION
  | ENUM, ENUM | INPUT_OBJECT, INPUT_OBJECT | LIST, LIST | NON_NULL, NON_NULL => true
  | _, _ => false
  end.

(** A type reference as it arrives in the response: [{ kind, name, ofType }],
    where [name] and [ofType] may be null or missing. *)
Inductive TypeRef : Type :=
| mkTypeRef (kind : TypeKind) (name : option string) (ofType : option TypeRef).

Definition ref_kind (t : TypeRef) : TypeKind :=
  match t with mkTypeRef k _ _ => k end.
Definition ref_name (t : TypeRef) : option string :=
  match t with mkTypeRef _ n _ => n end.
Definition ref_ofType (t : TypeRef) : option TypeRef :=
  match t with mkTypeRef _ _ o => o end.

Record IntrospectionField : Type := mkField {
  field_name : string;
  field_description : option string;
  field_type : TypeRef;
  field_args : option (list JSON)
}.

(** [type_fields] is [None] when the type has no [fields] property. *)
Record IntrospectionType : Type := mkType {
  type_kind : TypeKind;
  type_name : string;
  type_fields : option (list IntrospectionField)
}.

Record IntrospectionNamedTypeRef : Type := mkNamed { named_name : string }.

Record IntrospectionSchema : Type := mkSchema {
  queryType : option IntrospectionNamedTypeRef;
  mutationType : option IntrospectionNamedTypeRef;
  subscriptionType : option IntrospectionNamedTypeRef;
  types : list IntrospectionType
}.

(** A heap object: its address is its identity, so two references are the
    same object exactly when the addresses agree. *)
Record Obj (A : Type) : Type := mkObj { addr : nat; value : A }.
Arguments mkObj {A} addr value.
Arguments addr {A} o.
Arguments value {A} o.

(** The data of an introspection response, [{ __schema }]. *)
Record IntrospectionQuery : Type := mkIntrospectionQuery {
  schema__ : option (Obj IntrospectionSchema)
}.

(** ** The request function and the effect monad *)

Record Request : Type := mkRequest {
  req_query : string;
  req_variables : option JSON
}.

Inductive Response (T : Type) : Type :=
| Resolved (data : T)
| Rejected (e : JsError).
Arguments Resolved {T} data.
Arguments Rejected {T} e.

(** The endpoint as seen through [gqlClient.request<T>]: the answer may
    depend on how many requests were made before. *)
Definition Backend (T : Type) : Type := nat -> Request -> Response T.

Inductive Outcome (A : Type) : Type :=
| Returned (a : A)
| Thrown (e : JsError).
Arguments Returned {A} a.
Arguments Thrown {A} e.

Definition bindO {A B} (o : Outcome A) (k : A -> Outcome B) : Outcome B :=
  match o with
  | Returned a => k a
  | Thrown e => Thrown e
  end.

(** [Array.prototype.filter] and [map] with a callback that may throw. *)
Fixpoint filterO {A} (p : A -> Outcome bool) (l : list A) : Outcome (list A) :=
  match l with
  | [] => Returned []
  | x :: r =>
      bindO (p x) (fun keep =>
      bindO (filterO p r) (fun r' =>
      Returned (if keep then x :: r' else r')))
  end.

Fixpoint mapO {A B} (f : A -> Outcome B) (l : list A) : Outcome (list B) :=
  match l with
  | [] => Returned []
  | x :: r =>
      bindO (f x) (fun y =>
      bindO (mapO f r) (fun r' =>
      Returned (y :: r')))
  end.

(** The process state: the requests sent so far and the module variable
    [introspectionSchema] of index.ts. *)
Record World : Type := mkWorld {
  calls : list Request;
  introspectionSchema : option (Obj IntrospectionSchema)
}.

Definition M (A : Type) : Type := World -> Outcome A * World.

Definition ret {A} (a : A) : M A := fun w => (Returned a, w).
Definition throw {A} (e : JsError) : M A := fun w => (Thrown e, w).
Definition bind {A B} (m : M A) (k : A -> M B) : M B :=
  fun w => match m w with
           | (Returned a, w') => k a w'
           | (Thrown e, w') => (Thrown e, w')
           end.
Definition tryCatch {A} (m : M A) (handler : JsError -> M A) : M A :=
  fun w => match m w with
           | (Returned a, w') => (Returned a, w')
           | (Thrown e, w') => handler e w'
           end.
Definition liftO {A} (o : Outcome A) : M A := fun w => (o, w).

Definition setSchema (s : option (Obj IntrospectionSchema)) : M unit :=
  fun w => (Returned tt, {| calls := calls w; introspectionSchema := s |}).
Definition getSchema : M (option (Obj IntrospectionSchema)) :=
  fun w => (Returned (introspectionSchema w), w).

Notation "x <- m ;; k" := (bind m (fun x => k))
  (at level 100, m at next level, right associativity).

(** ** src/index.ts *)

Module Index.

(** [gqlClient.request]: the only place where the network is reached. *)
Definition gqlClient_request {T} (backend : Backend T) (query : string)
    (variables : option JSON) : M T :=
  fun w =>
    let r := mkRequest query variables in
    let w' := {| calls := calls w ++ [r];
                 introspectionSchema := introspectionSchema w |} in
    match backend (length (calls w)) r with
    | Resolved data => (Returned data, w')
    | Rejected e => (Thrown e, w')
    end.

Definition gqlErrors (errors : option (list string)) : string :=
  let joined := match errors with
                | Some l => join ", " l
                | None => ""
                end in
  if String.eqb joined "" then "Unknown GraphQL error" else joined.

Definition makeGqlRequest {T} (backend : Backend T) (query : string)
    (variables : option JSON) : M T :=
  tryCatch (gqlClient_request backend query variables)
    (fun error =>
       match error with
       | ClientError errors _ =>
           throw (Error ("GraphQL operation failed: " ++ gqlErrors errors))
       | _ => throw error
       end).

Section SchemaCache.

(** The document returned by [getIntrospectionQuery()] of the [graphql]
    package, and the endpoint answering it ([None] is a null body). *)
Variable introspectionQuery : string.
Variable endpoint : Backend (option IntrospectionQuery).

Definition getIntrospectionSchema : M (Obj IntrospectionSchema) :=
  cached <- getSchema ;;
  match cached with
  | Some schema => ret schema
  | None =>
      tryCatch
        (result <- makeGqlRequest endpoint introspectionQuery None ;;
         match result with
         | None =>
             throw (TypeError "Cannot read properties of undefined (reading '__schema')")
         | Some result =>
             match schema__ result with
             | None =>
                 throw (Error "Introspection query did not return a __schema object.")
             | Some schema =>
                 _ <- setSchema (Some schema) ;;
                 ret schema
             end
         end)
        (fun error =>
           _ <- setSchema None ;;
           throw (Error ("Failed to get GraphQL schema: " ++ message error)))
  end.

End SchemaCache.

End Index.

(** The payload of a tool result [{ content: [{ type: "text", text:
  JSON.stringify(payload, null, 2) }] }]. *)
Record ToolResult : Type := mkToolResult { payload : JSON }.

(** ** src/tools/RunGraphQLQueryTool.ts: post-hoc trimming *)

Module RunGraphQLQueryTool.

Record Input : Type := mkInput {
  query : string;
  variables : option (list (string * JSON));
  forceBigQuery : option bool
}.

(** The two closure variables written by [trimResult]. *)
Record TrimState : Type := mkTrimState {
  trimmed : bool;
  trimmedFields : list string
}.

Definition trimNote (path : string) (len : nat) : string :=
  path ++ " (" ++ showNat len ++ " rows trimmed to 100)".

Fixpoint trimResult (obj : JSON) (path : string) (st : TrimState)
  : JSON * TrimState :=
  match obj with
  | JArray items =>
      if (100 <? length items)%nat then
        (JArray (take 100 items),
         {| trimmed := true;
            trimmedFields := trimmedFields st ++ [trimNote path (length items)] |})
      else
        let fix mapItems (l : list JSON) (idx : nat) (st : TrimState)
          : list JSON * TrimState :=
          match l with
          | [] => ([], st)
          | item :: r =>
              let '(item', st1) :=
                trimResult item (path ++ "[" ++ showNat idx ++ "]") st in
              let '(r', st2) := mapItems r (Datatypes.S idx) st1 in
              (item' :: r', st2)
          end in
        let '(items', st') := mapItems items 0 st in
        (JArray items', st')
  | JObject members =>
      let fix forIn (l : list (string * JSON)) (st : TrimState)
        : list (string * JSON) * TrimState :=
        match l with
        | [] => ([], st)
        | (key, v) :: r =>
            let '(v', st1) :=
              trimResult v (if String.eqb path "root" then key
                            else path ++ "." ++ key) st in
            let '(r', st2) := forIn r st1 in
            ((key, v') :: r', st2)
        end in
      let '(members', st') := forIn members st in
      (JObject members', st')
  | _ => (obj, st)
  end.

Definition readOnlyMessage : string :=
  "This tool only supports read-only queries...".

Definition warningText (fields : list string) : string :=
  "Results were automatically trimmed to 100 rows per array to prevent excessive data. Trimmed fields: "
  ++ join ", " fields
  ++ ". Use pagination in your query (limit/offset) or set forceBigQuery=true to get all results.".

(** The governor applied to the response once it has arrived. *)
Definition shape (force : bool) (result : JSON) : JSON :=
  if negb force then
    let '(trimmedResult, st) := trimResult result "root" (mkTrimState false []) in
    if trimmed st then
      JObject (setKey "_warning" (JString (warningText (trimmedFields st)))
                      (spread trimmedResult))
    else trimmedResult
  else result.

Definition execute (backend : Backend JSON) (input : Input) : M ToolResult :=
  let force := default false (forceBigQuery input) in
  if startsWith (toLowerCase (trim (query input))) "mutation" then
    throw (Error readOnlyMessage)
  else
    tryCatch
      (result <- Index.makeGqlRequest backend (query input)
                   (Some (JObject (default [] (variables input)))) ;;
       ret (mkToolResult (shape force result)))
      (fun error => throw error).

End RunGraphQLQueryTool.

(** ** The variant of RunGraphQLQueryTool with the pre-flight limit check *)

Module RunGraphQLQueryTool_limit.

Record Input : Type := mkInput {
  query : string;
  variables : option (list (string * JSON));
  limit : option Z;
  offset : option Z;
  forceBigQuery : option bool
}.

Definition readOnlyMessage : string :=
  "This tool only supports read-only queries...".

Definition limitMessage : string :=
  "Query requires limit <= 100. Set forceBigQuery=true to bypass this safety check.".

(** [limit === undefined || limit > 100] *)
Definition limitMissingOrOver (limit : option Z) : bool :=
  match limit with
  | None => true
  | Some l => (100 <? l)%Z
  end.

Definition mergedVariables (input : Input) : list (string * JSON) :=
  let merged := default [] (variables input) in
  let merged := match limit input with
                | Some l => setKey "limit" (JNumber l) merged
                | None => merged
                end in
  match offset input with
  | Some o => setKey "offset" (JNumber o) merged
  | None => merged
  end.

Definition execute (backend : Backend JSON) (input : Input) : M ToolResult :=
  let force := default false (forceBigQuery input) in
  if startsWith (toLowerCase (trim (query input))) "mutation" then
    throw (Error readOnlyMessage)
  else if negb force && limitMissingOrOver (limit input) then
    throw (Error limitMessage)
  else
    tryCatch
      (result <- Index.makeGqlRequest backend (query input)
                   (Some (JObject (mergedVariables input))) ;;
       ret (mkToolResult result))
      (fun error => throw error).

End RunGraphQLQueryTool_limit.

(** ** RunGraphQLMutationTool *)

Module RunGraphQLMutationTool.

Record Input : Type := mkInput {
  mutation : string;
  variables : option (list (string * JSON))
}.

Definition notMutationMessage : string :=
  "The provided string does not appear to be a mutation...".

Definition execute (backend : Backend JSON) (input : Input) : M ToolResult :=
  if negb (startsWith (toLowerCase (trim (mutation input))) "mutation") then
    throw (Error notMutationMessage)
  else
    tryCatch
      (result <- Index.makeGqlRequest backend (mutation input)
                   (option_map JObject (variables input)) ;;
       ret (mkToolResult result))
      (fun error => throw error).

End RunGraphQLMutationTool.

(** ** src/tools/PreviewTableDataTool.ts *)

Module PreviewTableDataTool.

Record Input : Type := mkInput {
  tableName : string;
  limit : Z
}.

(** The loop [while (kind is NON_NULL or LIST) currentType = currentType.ofType];
    reading [.kind] of a missing [ofType] is a TypeError. *)
Fixpoint unwrap (currentType : TypeRef) : Outcome TypeRef :=
  match currentType with
  | mkTypeRef NON_NULL _ ofType | mkTypeRef LIST _ ofType =>
      match ofType with
      | Some inner => unwrap inner
      | None => Thrown (TypeError "Cannot read properties of undefined (reading 'kind')")
      end
  | _ => Returned currentType
  end.

(** The callback given to [filter]. *)
Definition isScalarOrEnum (f : IntrospectionField) : Outcome bool :=
  bindO (unwrap (field_type f)) (fun currentType =>
  Returned (TypeKind_eqb (ref_kind currentType) SCALAR
            || TypeKind_eqb (ref_kind currentType) ENUM)).

Definition scalarFields (tableType : IntrospectionType) : Outcome (list string) :=
  bindO (match type_fields tableType with
         | Some fields =>
             bindO (filterO isScalarOrEnum fields) (fun kept =>
             Returned (map field_name kept))
         | None => Returned []
         end) (fun scalarFields =>
  Returned (if (length scalarFields =? 0)%nat
            then (scalarFields ++ ["__typename"])%list else scalarFields)).

Definition newline : string := String (ascii_of_nat 10) EmptyString.

Definition previewQuery (tableName : string) (scalarFields : list string) : string :=
  " query PreviewData($limit: Int!) { " ++ tableName ++ "(limit: $limit) { "
  ++ join (newline ++ "          ") scalarFields ++ " } }".

Definition findTable (tableName : string) (schema : IntrospectionSchema)
  : option IntrospectionType :=
  find (fun t => String.eqb (type_name t) tableName && TypeKind_eqb (type_kind t) OBJECT)
       (types schema).

Definition execute (backend : Backend JSON)
    (getIntrospectionSchema : M (Obj IntrospectionSchema))
    (input : Input) : M ToolResult :=
  tryCatch
    (schema <- getIntrospectionSchema ;;
     match findTable (tableName input) (value schema) with
     | None =>
         throw (Error ("Table (Object type) '" ++ tableName input
                       ++ "' not found in schema."))
     | Some tableType =>
         fields <- liftO (scalarFields tableType) ;;
         result <- Index.makeGqlRequest backend
                     (previewQuery (tableName input) fields)
                     (Some (JObject [("limit", JNumber (limit input))])) ;;
         ret (mkToolResult result)
     end)
    (fun error => throw error).

End PreviewTableDataTool.

(** ** src/tools/DescribeTableTool.ts: the column renderer *)

Module DescribeTableTool.

Record ColumnInfo : Type := mkColumnInfo {
  col_name : string;
  col_type : string;
  col_description : option string;
  col_args : option (list JSON)
}.

Record Unwrapped : Type := mkUnwrapped {
  typeString : string;
  isNonNull : bool;
  isList : bool
}.

(** [typeInfo.name || 'unknown'] *)
Definition nameOrUnknown (name : option string) : string :=
  match name with
  | Some n => if String.eqb n "" then "unknown" else n
  | None => "unknown"
  end.

(** The loop [while (typeInfo) { ... }], entered with a non-null
    [typeInfo] and the current values of the two flags. *)
Fixpoint unwrapLoop (typeInfo : TypeRef) (isNonNull isList : bool) : Unwrapped :=
  match typeInfo with
  | mkTypeRef NON_NULL _ ofType =>
      match ofType with
      | Some inner => unwrapLoop inner true isList
      | None => mkUnwrapped "" true isList
      end
  | mkTypeRef LIST _ ofType =>
      match ofType with
      | Some inner => unwrapLoop inner isNonNull true
      | None => mkUnwrapped "" isNonNull true
      end
  | mkTypeRef _ name _ => mkUnwrapped (nameOrUnknown name) isNonNull isList
  end.

Definition unwrap (fieldType : TypeRef) : Unwrapped :=
  unwrapLoop fieldType false false.

Definition fullTypeString (u : Unwrapped) : string :=
  let s := if isList u then "[" ++ typeString u ++ "]" else typeString u in
  if isNonNull u then s ++ "!" else s.

(** [description || null] *)
Definition orNull (s : option string) : option string :=
  match s with
  | Some d => if String.eqb d "" then None else Some d
  | None => None
  end.

(** [args?.length ? args : null] *)
Definition argsOrNull (args : option (list JSON)) : option (list JSON) :=
  match args with
  | Some (a :: r) => Some (a :: r)
  | _ => None
  end.

(** The callback given to [fields.map]; none of its statements throws. *)
Definition columnInfo (field : IntrospectionField) : Outcome ColumnInfo :=
  Returned {| col_name := field_name field;
              col_type := fullTypeString (unwrap (field_type field));
              col_description := orNull (field_description field);
              col_args := argsOrNull (field_args field) |}.

Definition columnsInfo (fields : list IntrospectionField) : Outcome (list ColumnInfo) :=
  mapO columnInfo fields.

End DescribeTableTool.

(** ** src/tools/AggregateDataTool.ts *)

Module AggregateDataTool.

Inductive AggregateFunction : Type := count | sum | avg | min | max.

Definition functionName (f : AggregateFunction) : string :=
  match f with
  | count => "count" | sum => "sum" | avg => "avg" | min => "min" | max => "max"
  end.

Definition isCount (f : AggregateFunction) : bool :=
  match f with count => true | _ => false end.

Record Input : Type := mkInput {
  tableName : string;
  aggregateFunction : AggregateFunction;
  field : option string;
  filter : option (list (string * JSON))
}.

(** Truthiness of the optional string [field]. *)
Definition hasField (field : option string) : bool :=
  match field with
  | Some f => negb (String.eqb f "")
  | None => false
  end.

Definition requiredMessage (f : AggregateFunction) : string :=
  "The 'field' parameter is required for '" ++ functionName f ++ "' aggregation.".

Definition missingMessage (f : AggregateFunction) : string :=
  "'field' parameter is missing for '" ++ functionName f ++ "' aggregation.".

Definition aggregateSelection (f : AggregateFunction) (field : option string)
  : Outcome string :=
  if isCount f then Returned "{ count }"
  else if hasField field then
    Returned ("{ " ++ functionName f ++ " { " ++ default "" field ++ " } }")
  else Thrown (Error (missingMessage f)).

Definition newline : string := String (ascii_of_nat 10) EmptyString.

Definition aggregateQuery (input : Input) (aggregateSelection : string) : string :=
  let aggregateTableName := tableName input ++ "_aggregate" in
  let boolExpTypeName := tableName input ++ "_bool_exp" in
  let filterVariableDefinition :=
    match filter input with
    | Some _ => "($filter: " ++ boolExpTypeName ++ "!)"
    | None => ""
    end in
  let whereClause :=
    match filter input with
    | Some _ => "where: $filter"
    | None => ""
    end in
  newline ++ "      query AggregateData " ++ filterVariableDefinition ++ " {"
  ++ newline ++ "        " ++ aggregateTableName ++ "(" ++ whereClause ++ ") {"
  ++ newline ++ "          aggregate " ++ aggregateSelection
  ++ newline ++ "        }"
  ++ newline ++ "      }"
  ++ newline ++ "    ".

Definition aggregateVariables (input : Input) : JSON :=
  match filter input with
  | Some f => JObject [("filter", JObject f)]
  | None => JObject []
  end.

(** [rawResult && rawResult[aggregateTableName] &&
     rawResult[aggregateTableName].aggregate], or [rawResult] itself. *)
Definition finalResult (aggregateTableName : string) (rawResult : JSON) : JSON :=
  if truthy rawResult then
    match getProp rawResult aggregateTableName with
    | Some t =>
        if truthy t then
          match getProp t "aggregate" with
          | Some a => if truthy a then a else rawResult
          | None => rawResult
          end
        else rawResult
    | None => rawResult
    end
  else rawResult.

Definition execute (backend : Backend JSON) (input : Input) : M ToolResult :=
  let f := aggregateFunction input in
  if negb (isCount f) && negb (hasField (field input)) then
    throw (Error (requiredMessage f))
  else
    selection <- liftO (aggregateSelection f (field input)) ;;
    tryCatch
      (rawResult <- Index.makeGqlRequest backend (aggregateQuery input selection)
                      (Some (aggregateVariables input)) ;;
       ret (mkToolResult (finalResult (tableName input ++ "_aggregate") rawResult)))
      (fun error =>
         match error with
         | ClientError (Some errors) _ =>
             throw (Error ("GraphQL aggregation failed: " ++ join ", " errors
                           ++ ". Check table/field names and filter syntax."))
         | _ => throw error
         end).

End AggregateDataTool.

(** ** CheckUnsupportedRootTypesTool *)

Module CheckUnsupportedRootTypesTool.

Record StandardTypes : Type := mkStandardTypes {
  query : option string;
  mutation : option string;
  subscription : option string
}.

Record Unsupported : Type := mkUnsupported {
  name : string;
  fieldCount : nat
}.

Definition addRoot (root : option IntrospectionNamedTypeRef) (s : gset string)
  : gset string :=
  match root with
  | Some r => s ∪ {[ named_name r ]}
  | None => s
  end.

Definition supportedTypes (schema : IntrospectionSchema) : gset string :=
  addRoot (subscriptionType schema)
    (addRoot (mutationType schema) (addRoot (queryType schema) ∅)).

Definition standardTypes (schema : IntrospectionSchema) : StandardTypes :=
  {| query := option_map named_name (queryType schema);
     mutation := option_map named_name (mutationType schema);
     subscription := option_map named_name (subscriptionType schema) |}.

(** [[q?.name, m?.name, s?.name].filter(Boolean)] *)
Definition rootTypeNames (schema : IntrospectionSchema) : list string :=
  List.filter (fun n => negb (String.eqb n ""))
    (omap (option_map named_name)
       [queryType schema; mutationType schema; subscriptionType schema]).

Definition includes (l : list string) (x : string) : bool :=
  List.existsb (String.eqb x) l.

Definition allRootTypes (schema : IntrospectionSchema) : list IntrospectionType :=
  List.filter
    (fun t => TypeKind_eqb (type_kind t) OBJECT
              && endsWith (type_name t) "_root"
              && negb (includes (rootTypeNames schema) (type_name t))
              && negb (startsWith (type_name t) "__"))
    (types schema).

(** ['fields' in t ? t.fields.length : 0] *)
Definition fieldCountOf (t : IntrospectionType) : nat :=
  match type_fields t with
  | Some fields => length fields
  | None => 0
  end.

(** The [forEach] that pushes onto [unsupportedTypes]. *)
Definition unsupportedTypes (schema : IntrospectionSchema) : list Unsupported :=
  let all := allRootTypes schema in
  if (0 <? length all)%nat then
    fold_left
      (fun acc t =>
         if negb (bool_decide (type_name t ∈ supportedTypes schema))
            && TypeKind_eqb (type_kind t) OBJECT
         then (acc ++ [mkUnsupported (type_name t) (fieldCountOf t)])%list
         else acc)
      all []
  else [].

Definition recommendation (n : nat) : string :=
  if (0 <? n)%nat then
    "Found " ++ showNat n ++ " custom root type(s). These types may indicate: 1) Custom schema configuration requiring special handling, 2) Federation or stitching setup with custom root types, or 3) Schema design patterns not following GraphQL conventions. Review these types to determine if they need to be queried through special endpoints or if the schema configuration needs adjustment."
  else
    "No custom root types detected. Schema follows standard GraphQL conventions with standard Query/Mutation/Subscription types.".

Definition optionalKey (key : string) (v : option string) : list (string * JSON) :=
  match v with
  | Some s => [(key, JString s)]
  | None => []
  end.

Definition result (schema : IntrospectionSchema) : JSON :=
  let unsupported := unsupportedTypes schema in
  let standard := standardTypes schema in
  JObject
    [("hasUnsupportedTypes", JBool (0 <? length unsupported)%nat);
     ("standardTypes",
      JObject (optionalKey "query" (query standard)
               ++ optionalKey "mutation" (mutation standard)
               ++ optionalKey "subscription" (subscription standard))%list);
     ("unsupportedTypes",
      JArray (map (fun u => JObject [("name", JString (name u));
                                     ("fieldCount", JNumber (Z.of_nat (fieldCount u)))])
                  unsupported));
     ("recommendation", JString (recommendation (length unsupported)))].

Definition execute (getIntrospectionSchema : M (Obj IntrospectionSchema))
  : M ToolResult :=
  tryCatch
    (schema <- getIntrospectionSchema ;;
     ret (mkToolResult (result (value schema))))
    (fun error => throw error).

End CheckUnsupportedRootTypesTool.

(** ** src/tools/ListRootFieldsTool.ts: detection of custom root types *)

Module ListRootFieldsTool.

Inductive FieldType : Type := QUERY | MUTATION | SUBSCRIPTION.

Definition FieldType_eqb (a b : FieldType) : bool :=
  match a, b with
  | QUERY, QUERY | MUTATION, MUTATION | SUBSCRIPTION, SUBSCRIPTION => true
  | _, _ => false
  end.

(** [!fieldType || fieldType === which] *)
Definition selected (fieldType : option FieldType) (which : FieldType) : bool :=
  match fieldType with
  | None => true
  | Some ft => FieldType_eqb ft which
  end.

Definition addRoot (fieldType : option FieldType) (which : FieldType)
    (root : option IntrospectionNamedTypeRef) (s : gset string) : gset string :=
  match root with
  | Some r => if selected fieldType which then s ∪ {[ named_name r ]} else s
  | None => s
  end.

Definition supportedTypes (fieldType : option FieldType)
    (schema : IntrospectionSchema) : gset string :=
  addRoot fieldType SUBSCRIPTION (subscriptionType schema)
    (addRoot fieldType MUTATION (mutationType schema)
       (addRoot fieldType QUERY (queryType schema) ∅)).

Definition allRootTypes (schema : IntrospectionSchema) : list IntrospectionType :=
  List.filter
    (fun t => TypeKind_eqb (type_kind t) OBJECT
              && endsWith (type_name t) "_root"
              && negb (CheckUnsupportedRootTypesTool.includes
                         (CheckUnsupportedRootTypesTool.rootTypeNames schema)
                         (type_name t))
              && negb (startsWith (type_name t) "__"))
    (types schema).

Definition unsupportedTypes (fieldType : option FieldType)
    (schema : IntrospectionSchema) : list string :=
  let all := allRootTypes schema in
  if (0 <? length all)%nat then
    fold_left
      (fun acc t =>
         if negb (bool_decide (type_name t ∈ supportedTypes fieldType schema))
         then (acc ++ [type_name t])%list
         else acc)
      all []
  else [].

Definition warning (unsupported : list string) : string :=
  "Found " ++ showNat (length unsupported)
  ++ " potential custom root type(s) that are not standard Query/Mutation/Subscription types: "
  ++ join ", " unsupported
  ++ ". These may require additional support to be queried.".

(** The optional tail [...(unsupportedTypes.length > 0 && { warning,
    unsupportedTypes })] of the result object. *)
Definition warningKeys (unsupported : list string) : list (string * JSON) :=
  if (0 <? length unsupported)%nat then
    [("warning", JString (warning unsupported));
     ("unsupportedTypes", JArray (map JString unsupported))]
  else [].

End ListRootFieldsTool.

(** * Specification vocabulary

    The predicates, relations and sample data in which the properties of the
    tools are stated. *)

(** Every character of [s] is white space. *)
Fixpoint allWhite (s : string) : bool :=
  match s with
  | EmptyString => true
  | String c r => isWhiteSpace c && allWhite r
  end.

(** [c] is the letter [k] or its capital. *)
Definition sameLetter (k c : ascii) : Prop :=
  c = k \/ (nat_of_ascii c + 32 = nat_of_ascii k /\ 65 <= nat_of_ascii c <= 90).

(** [s] spells the keyword letter by letter, in either case. *)
Inductive MatchesIgnoringCase : string -> string -> Prop :=
| mic_nil : MatchesIgnoringCase "" ""
| mic_cons k c kw s :
    sameLetter k c -> MatchesIgnoringCase kw s ->
    MatchesIgnoringCase (String k kw) (String c s).

(** After leading white space, [doc] begins with the keyword mutation,
    whatever the case of its letters. *)
Definition BeginsWithMutation (doc : string) : Prop :=
  exists ws kw rest,
    doc = ws ++ kw ++ rest /\ allWhite ws = true /\ MatchesIgnoringCase "mutation" kw.

(** [s] consists of the letters a to z. *)
Fixpoint lowerLetters (s : string) : bool :=
  match s with
  | EmptyString => true
  | String c r => (97 <=? nat_of_ascii c)%nat && (nat_of_ascii c <=? 122)%nat && lowerLetters r
  end.

(** [m] throws [Error msg] and leaves the world as it was: nothing was sent. *)
Definition rejectedBeforeNetwork {A} (m : M A) (w : World) (msg : string) : Prop :=
  m w = (Thrown (Error msg), w).

(** [m] sends exactly the request [r] and nothing else. *)
Definition sendsExactly {A} (m : M A) (w : World) (r : Request) : Prop :=
  snd (m w) = {| calls := calls w ++ [r]; introspectionSchema := introspectionSchema w |}.

(** No explicit limit, or a limit above the ceiling, and no override. *)
Definition unboundedRequest (input : RunGraphQLQueryTool_limit.Input) : Prop :=
  (RunGraphQLQueryTool_limit.limit input = None
   \/ exists l, RunGraphQLQueryTool_limit.limit input = Some l /\ (100 < l)%Z)
  /\ RunGraphQLQueryTool_limit.forceBigQuery input <> Some true.

(** The aggregate functions that take a field. *)
Definition needsField (f : AggregateDataTool.AggregateFunction) : Prop :=
  f = AggregateDataTool.sum \/ f = AggregateDataTool.avg
  \/ f = AggregateDataTool.min \/ f = AggregateDataTool.max.

(** [n] successive calls of [m]: their outcomes and the final world. *)
Fixpoint successive {A} (n : nat) (m : M A) (w : World) : list (Outcome A) * World :=
  match n with
  | O => ([], w)
  | S n' =>
      let '(o, w1) := m w in
      let '(os, w2) := successive n' m w1 in
      (o :: os, w2)
  end.

(** What the endpoint answered is not a schema: the cause reported to the
    caller, if the fetch failed. *)
Definition fetchFailure (r : Response (option IntrospectionQuery)) : option string :=
  match r with
  | Rejected (ClientError errors _) =>
      Some ("GraphQL operation failed: " ++ Index.gqlErrors errors)
  | Rejected e => Some (message e)
  | Resolved None => Some "Cannot read properties of undefined (reading '__schema')"
  | Resolved (Some q) =>
      match schema__ q with
      | None => Some "Introspection query did not return a __schema object."
      | Some _ => None
      end
  end.

(** The chain of wrappers of [t] ends in a node that is not a wrapper, of
    kind [k] and with name [n]. *)
Inductive EndsIn : TypeRef -> TypeKind -> option string -> Prop :=
| ends_named k n o :
    k <> LIST -> k <> NON_NULL -> EndsIn (mkTypeRef k n o) k n
| ends_list n t k' n' :
    EndsIn t k' n' -> EndsIn (mkTypeRef LIST n (Some t)) k' n'
| ends_non_null n t k' n' :
    EndsIn t k' n' -> EndsIn (mkTypeRef NON_NULL n (Some t)) k' n'.

(** The chain ends in a wrapper that wraps nothing. *)
Inductive Dangling : TypeRef -> Prop :=
| dangling_list n : Dangling (mkTypeRef LIST n None)
| dangling_non_null n : Dangling (mkTypeRef NON_NULL n None)
| dangling_in_list n t : Dangling t -> Dangling (mkTypeRef LIST n (Some t))
| dangling_in_non_null n t : Dangling t -> Dangling (mkTypeRef NON_NULL n (Some t)).

(** The wrapper layers of [t], from the outside in. *)
Fixpoint wrappers (t : TypeRef) : list TypeKind :=
  match t with
  | mkTypeRef LIST _ o =>
      LIST :: match o with Some inner => wrappers inner | None => [] end
  | mkTypeRef NON_NULL _ o =>
      NON_NULL :: match o with Some inner => wrappers inner | None => [] end
  | _ => []
  end.

(** A layer of kind [k] occurs in the chain of [t]. *)
Definition hasLayer (k : TypeKind) (t : TypeRef) : Prop := In k (wrappers t).

(** [n] alternating NON_NULL and LIST layers around [t]. *)
Fixpoint wrapped (n : nat) (t : TypeRef) : TypeRef :=
  match n with
  | O => t
  | S n' => mkTypeRef (if Nat.even n then LIST else NON_NULL) None (Some (wrapped n' t))
  end.

(** The column type built from a name and the two flags. *)
Definition rendering (name : string) (list nonNull : bool) : string :=
  (if list then "[" ++ name ++ "]" else name) ++ (if nonNull then "!" else "").

(** The named type String. *)
Definition stringRef : TypeRef := mkTypeRef SCALAR (Some "String") None.

Definition scalarOrEnum (k : TypeKind) : Prop := k = SCALAR \/ k = ENUM.

(** [kept] are the names, in order, of the fields of [fields] whose chain
    ends in a SCALAR or an ENUM. *)
Inductive Projects : list IntrospectionField -> list string -> Prop :=
| projects_nil : Projects [] []
| projects_keep f fields kept k n :
    EndsIn (field_type f) k n -> scalarOrEnum k -> Projects fields kept ->
    Projects (f :: fields) (field_name f :: kept)
| projects_drop f fields kept k n :
    EndsIn (field_type f) k n -> ~ scalarOrEnum k -> Projects fields kept ->
    Projects (f :: fields) kept.

(** The projection, or the synthetic field when it is empty. *)
Definition withFallback (kept : list string) : list string :=
  match kept with
  | [] => ["__typename"]
  | _ => kept
  end.

(** The names bound as query, mutation or subscription root. *)
Definition canonicalRoot (schema : IntrospectionSchema) (name : string) : Prop :=
  queryType schema = Some (mkNamed name)
  \/ mutationType schema = Some (mkNamed name)
  \/ subscriptionType schema = Some (mkNamed name).

(** A root-like object type that is not bound to a canonical role. *)
Definition Suspect (schema : IntrospectionSchema) (t : IntrospectionType) : Prop :=
  type_kind t = OBJECT
  /\ (exists stem, type_name t = stem ++ "_root")
  /\ ~ canonicalRoot schema (type_name t)
  /\ ~ (exists rest, type_name t = "__" ++ rest).

(** [out] lists [f x], in order, for exactly the [x] of the input with [P x]. *)
Inductive Selected {A B} (P : A -> Prop) (f : A -> B) : list A -> list B -> Prop :=
| selected_nil : Selected P f [] []
| selected_keep x l out : P x -> Selected P f l out -> Selected P f (x :: l) (f x :: out)
| selected_drop x l out : ~ P x -> Selected P f l out -> Selected P f (x :: l) out.

(** Sample types: an Int field, and an object type with such fields. *)
Definition someField (name : string) : IntrospectionField :=
  mkField name None (mkTypeRef SCALAR (Some "Int") None) None.

Definition objectType (name : string) (fieldNames : list string) : IntrospectionType :=
  mkType OBJECT name (Some (map someField fieldNames)).

(** A schema with the canonical query root and no other root-like type,
    but with reserved names that match the suffix. *)
Definition plainSchema : IntrospectionSchema :=
  {| queryType := Some (mkNamed "query_root");
     mutationType := None;
     subscriptionType := None;
     types := [objectType "query_root" ["users"; "orders"];
               objectType "users" ["id"];
               objectType "__Schema" ["types"];
               objectType "__meta_root" ["x"];
               mkType SCALAR "Int" None] |}.

(** The same schema with one extra object type named weird_root. *)
Definition weirdSchema : IntrospectionSchema :=
  {| queryType := queryType plainSchema;
     mutationType := None;
     subscriptionType := None;
     types := (types plainSchema ++ [objectType "weird_root" ["a"; "b"; "c"]])%list |}.

(** The two inner loops of [trimResult]: [obj.map] with its index, and
    [for (key in obj)]. *)
Definition walkItems (path : string)
  : list JSON -> nat -> RunGraphQLQueryTool.TrimState
    -> list JSON * RunGraphQLQueryTool.TrimState :=
  fix mapItems (l : list JSON) (idx : nat) (st : RunGraphQLQueryTool.TrimState) :=
    match l with
    | [] => ([], st)
    | item :: r =>
        let '(item', st1) :=
          RunGraphQLQueryTool.trimResult item (path ++ "[" ++ showNat idx ++ "]") st in
        let '(r', st2) := mapItems r (S idx) st1 in
        (item' :: r', st2)
    end.

Definition walkMembers (path : string)
  : list (string * JSON) -> RunGraphQLQueryTool.TrimState
    -> list (string * JSON) * RunGraphQLQueryTool.TrimState :=
  fix forIn (l : list (string * JSON)) (st : RunGraphQLQueryTool.TrimState) :=
    match l with
    | [] => ([], st)
    | (key, v) :: r =>
        let '(v', st1) :=
          RunGraphQLQueryTool.trimResult v
            (if String.eqb path "root" then key else path ++ "." ++ key) st in
        let '(r', st2) := forIn r st1 in
        ((key, v') :: r', st2)
    end.

(** A value that is neither an array nor an object. *)
Definition isLeaf (v : JSON) : Prop :=
  match v with
  | JArray _ | JObject _ => False
  | _ => True
  end.

(** [v] holds, at some depth, an array of more than 100 elements. *)
Inductive Oversized : JSON -> Prop :=
| oversized_here items : 100 < length items -> Oversized (JArray items)
| oversized_item items v : In v items -> Oversized v -> Oversized (JArray items)
| oversized_member members key v :
    In (key, v) members -> Oversized v -> Oversized (JObject members).

(** [n] numbers, an array of length [n]. *)
Definition rowsOf (n : nat) : JSON :=
  JArray (map (fun i => JNumber (Z.of_nat i)) (seq 0 n)).

(** The closure variables before the walk. *)
Definition noTrim : RunGraphQLQueryTool.TrimState :=
  RunGraphQLQueryTool.mkTrimState false [].

(** A row holding an array of 101 tags. *)
Definition taggedRow : JSON := JObject [("tags", rowsOf 101)].

(** The process at start: nothing sent, nothing cached. *)
Definition emptyWorld : World := {| calls := []; introspectionSchema := None |}.

(** A backend that answers every request with an empty object. *)
Definition echoBackend : Backend JSON := fun _ _ => Resolved (JObject []).

(** A read-only document and an aggregate request. *)
Definition usersQuery : string := "query { users { id } }".

Definition sumOfPrice : AggregateDataTool.Input :=
  AggregateDataTool.mkInput "orders" AggregateDataTool.sum (Some "price") None.

(** The schema object of the sample endpoint, allocated at address 1. *)
Definition cachedObject : Obj IntrospectionSchema :=
  mkObj 1 (mkSchema (Some (mkNamed "query_root")) None None []).

(** An endpoint that is down for the first request and answers the
    introspection query afterwards. *)
Definition flakyEndpoint : Backend (option IntrospectionQuery) :=
  fun n _ =>
    match n with
    | O => Rejected (Error "connect ECONNREFUSED")
    | _ => Resolved (Some (mkIntrospectionQuery (Some cachedObject)))
    end.

(** A table with a non-null scalar, a list of objects and an enum. *)
Definition postsTable : IntrospectionType :=
  mkType OBJECT "posts"
    (Some [mkField "id" None
             (mkTypeRef NON_NULL None (Some (mkTypeRef SCALAR (Some "Int") None))) None;
           mkField "comments" None
             (mkTypeRef LIST None (Some (mkTypeRef OBJECT (Some "comments") None))) None;
           mkField "status" None (mkTypeRef ENUM (Some "status_enum") None) None]).

(** A table whose fields are all object- or union-typed. *)
Definition linksTable : IntrospectionType :=
  mkType OBJECT "links"
    (Some [mkField "author" None (mkTypeRef OBJECT (Some "users") None) None;
           mkField "target" None
             (mkTypeRef NON_NULL None (Some (mkTypeRef UNION (Some "node") None))) None]).


(** * Further code of the repository *)

(** ** Further built-ins *)

Module JsMore.

(** [s.includes(searchString)]: [searchString] occurs somewhere in [s]. *)
Fixpoint includes (s searchString : string) : bool :=
  String.prefix searchString s
  || match s with
     | EmptyString => false
     | String _ r => includes r searchString
     end.

(** A relative index of [Array.prototype.slice], clamped to the array. *)
Definition sliceIndex (len : nat) (i : Z) : nat :=
  if (i <? 0)%Z then Z.to_nat (Z.max (Z.of_nat len + i) 0)
  else Nat.min (Z.to_nat i) len.

(** [l.slice(start, stop)] for integer arguments. *)
Definition slice {A} (start stop : Z) (l : list A) : list A :=
  let first := sliceIndex (length l) start in
  let final := sliceIndex (length l) stop in
  take (final - first) (drop first l).

(** [s.charAt(0)] and [s.slice(1)]. *)
Definition charAt0 (s : string) : string :=
  match s with
  | EmptyString => EmptyString
  | String c _ => String c EmptyString
  end.

Definition sliceFrom1 (s : string) : string :=
  match s with
  | EmptyString => EmptyString
  | String _ r => r
  end.

(** [s || null] on an optional string, as a JSON value. *)
Definition stringOrNull (s : option string) : JSON :=
  match s with
  | Some d => if String.eqb d "" then JNull else JString d
  | None => JNull
  end.

End JsMore.

Import JsMore.

(** ** src/index.ts: the schema resource and the start-up fetch *)

Module Server.

Record ResourceContents : Type := mkResourceContents {
  uri : string;
  text : string;
  mimeType : string
}.

Definition SCHEMA_RESOURCE_URI : string := "hasura:/schema".
Definition SCHEMA_MIME_TYPE : string := "application/json".

Section Wiring.

Variable introspectionQuery : string.
Variable endpoint : Backend (option IntrospectionQuery).

(** [JSON.stringify(schema, null, 2)] *)
Variable stringifySchema : IntrospectionSchema -> string.

(** The read callback registered with [server.resource]. *)
Definition readSchemaResource : M (list ResourceContents) :=
  tryCatch
    (schema <- Index.getIntrospectionSchema introspectionQuery endpoint ;;
     ret [ {| uri := SCHEMA_RESOURCE_URI;
              text := stringifySchema (value schema);
              mimeType := SCHEMA_MIME_TYPE |} ])
    (fun error =>
       throw (Error ("Failed to retrieve GraphQL schema: " ++ message error))).

(** The first statement of [main]: the schema is fetched once at start-up
    and a failure is only logged. *)
Definition initialFetch : M unit :=
  tryCatch
    (_ <- Index.getIntrospectionSchema introspectionQuery endpoint ;;
     ret tt)
    (fun _ => ret tt).

End Wiring.

End Server.

(** ** src/tools/HealthCheckTool.ts *)

Module HealthCheckTool.

Record HttpResponse : Type := mkHttpResponse {
  status : nat;
  statusText : string;
  ok : bool
}.

(** [{ content: [{ type: "text", text }], isError }]; [isError] is [None]
    when the key is absent. *)
Record Result : Type := mkResult {
  text : string;
  isError : option bool
}.

Definition healthQuery : string := "query HealthCheck { __typename }".

Section Tool.

(** The global [fetch] for a GET request, [JSON.stringify] and the
    endpoint given to the constructor. *)
Variable fetch : string -> Response HttpResponse.
Variable stringify : JSON -> string.
Variable hasuraEndpoint : string.

Definition statusLine (url : string) (response : HttpResponse) : string :=
  "Health endpoint " ++ url ++ " status: " ++ showNat (status response)
  ++ " " ++ statusText response.

Definition probe (backend : Backend JSON) (healthEndpointUrl : option string) : M string :=
  match healthEndpointUrl with
  | Some (String c url) =>
      match fetch (String c url) with
      | Rejected e => throw e
      | Resolved response =>
          if negb (ok response) then throw (Error (statusLine (String c url) response))
          else ret (statusLine (String c url) response)
      end
  | _ =>
      result <- Index.makeGqlRequest backend healthQuery None ;;
      ret ("GraphQL endpoint " ++ hasuraEndpoint ++ " is responsive. Result: "
           ++ stringify result)
  end.

Definition execute (backend : Backend JSON) (healthEndpointUrl : option string)
  : M Result :=
  tryCatch
    (resultText <- probe backend healthEndpointUrl ;;
     ret {| text := "Health check successful. " ++ resultText; isError := None |})
    (fun error =>
       ret {| text := "Health check failed: " ++ message error;
              isError := Some false |}).

End Tool.

End HealthCheckTool.

(** ** src/tools/DescribeTableTool.ts: execute *)

Module DescribeTableToolExecute.

Record Input : Type := mkInput {
  tableName : string;
  schemaName : string
}.

(** The [__type] object of the response; [table_fields] is [None] when
    [fields] is null. *)
Record TableType : Type := mkTableType {
  table_description : option string;
  table_fields : option (list IntrospectionField)
}.

Record TypeQueryResult : Type := mkTypeQueryResult {
  type__ : option TableType
}.

Definition tableTypeQuery : string := "
        query GetTableType($typeName: String!) {
          __type(name: $typeName) {
            name
            kind
            description
            fields {
              name
              description
              type {
                kind
                name
                ofType {
                  kind
                  name
                  ofType {
                    kind
                    name
                    ofType {
                      kind
                      name
                    }
                  }
                }
              }
              args {
                name
                description
                type {
                  kind
                  name
                  ofType {
                    kind
                    name
                  }
                }
              }
            }
          }
        }
      ".

Definition typeNameVariables (typeName : string) : option JSON :=
  Some (JObject [("typeName", JString typeName)]).

Definition notFoundMessage (tableName : string) : string :=
  "Table '" ++ tableName ++ "' not found in schema. Check the table name and schema.".

Definition columnJSON (c : DescribeTableTool.ColumnInfo) : JSON :=
  JObject [("name", JString (DescribeTableTool.col_name c));
           ("type", JString (DescribeTableTool.col_type c));
           ("description",
            match DescribeTableTool.col_description c with
            | Some d => JString d
            | None => JNull
            end);
           ("args",
            match DescribeTableTool.col_args c with
            | Some args => JArray args
            | None => JNull
            end)].

Section Tool.

(** [String.prototype.toUpperCase] and the in-place
    [sort((a, b) => a.name.localeCompare(b.name))]. *)
Variable toUpperCase : string -> string.
Variable sortByName : list DescribeTableTool.ColumnInfo -> list DescribeTableTool.ColumnInfo.

Definition pascalCaseName (tableName : string) : string :=
  toUpperCase (charAt0 tableName) ++ sliceFrom1 tableName.

(** [__type] of a response; reading it off a null body is a TypeError. *)
Definition typeOf (r : option TypeQueryResult) : M (option TableType) :=
  match r with
  | Some r => ret (type__ r)
  | None => throw (TypeError "Cannot read properties of undefined (reading '__type')")
  end.

(** The two look-ups: the name as given, then with its first letter in
    upper case. *)
Definition lookupTable (backend : Backend (option TypeQueryResult)) (tableName : string)
  : M TableType :=
  tableTypeResult <- Index.makeGqlRequest backend tableTypeQuery
                       (typeNameVariables tableName) ;;
  direct <- typeOf tableTypeResult ;;
  match direct with
  | Some t => ret t
  | None =>
      alternativeResult <- Index.makeGqlRequest backend tableTypeQuery
                             (typeNameVariables (pascalCaseName tableName)) ;;
      alternative <- typeOf alternativeResult ;;
      match alternative with
      | Some t => ret t
      | None => throw (Error (notFoundMessage tableName))
      end
  end.

Definition columnsOf (t : TableType) : Outcome (list DescribeTableTool.ColumnInfo) :=
  match table_fields t with
  | Some fields => DescribeTableTool.columnsInfo fields
  | None => Thrown (TypeError "Cannot read properties of null (reading 'map')")
  end.

Definition result (input : Input) (t : TableType)
    (columnsInfo : list DescribeTableTool.ColumnInfo) : JSON :=
  JObject
    [("table",
      JObject [("name", JString (tableName input));
               ("schema", JString (schemaName input));
               ("description", stringOrNull (table_description t));
               ("columns", JArray (map columnJSON (sortByName columnsInfo)))])].

Definition execute (backend : Backend (option TypeQueryResult))
    (getIntrospectionSchema : M (Obj IntrospectionSchema))
    (input : Input) : M ToolResult :=
  tryCatch
    (schema <- getIntrospectionSchema ;;
     t <- lookupTable backend (tableName input) ;;
     columnsInfo <- liftO (columnsOf t) ;;
     ret (mkToolResult (result input t columnsInfo)))
    (fun error => throw error).

End Tool.

End DescribeTableToolExecute.

(** ** src/tools/ListRootFieldsTool.ts: execute *)

Module ListRootFieldsToolExecute.

Record Input : Type := mkInput {
  fieldType : option ListRootFieldsTool.FieldType;
  filter : option string;
  limit : option Z;
  offset : option Z
}.

Record FieldInfo : Type := mkFieldInfo {
  name : string;
  description : string
}.

(** [schema.types.find(t => t.name === root?.name)?.fields || []] for a
    root that is declared and selected by [fieldType]. *)
Definition rootFields (fieldType : option ListRootFieldsTool.FieldType)
    (which : ListRootFieldsTool.FieldType)
    (root : option IntrospectionNamedTypeRef)
    (schema : IntrospectionSchema) : list IntrospectionField :=
  match root with
  | Some r =>
      if ListRootFieldsTool.selected fieldType which then
        match List.find (fun t => String.eqb (type_name t) (named_name r)) (types schema) with
        | Some t => default [] (type_fields t)
        | None => []
        end
      else []
  | None => []
  end.

Definition fields (fieldType : option ListRootFieldsTool.FieldType)
    (schema : IntrospectionSchema) : list IntrospectionField :=
  (rootFields fieldType ListRootFieldsTool.QUERY (queryType schema) schema
   ++ rootFields fieldType ListRootFieldsTool.MUTATION (mutationType schema) schema
   ++ rootFields fieldType ListRootFieldsTool.SUBSCRIPTION (subscriptionType schema) schema)%list.

(** [{ name: f.name, description: f.description || "No description." }] *)
Definition fieldInfoOf (f : IntrospectionField) : FieldInfo :=
  {| name := field_name f;
     description := match field_description f with
                    | Some d => if String.eqb d "" then "No description." else d
                    | None => "No description."
                    end |}.

Definition matches (filterLower : string) (f : FieldInfo) : bool :=
  includes (toLowerCase (name f)) filterLower
  || includes (toLowerCase (description f)) filterLower.

(** [if (filter) { ... }]: an absent or empty filter keeps everything. *)
Definition applyFilter (filter : option string) (fieldInfo : list FieldInfo)
  : list FieldInfo :=
  match filter with
  | Some (String c r) => List.filter (matches (toLowerCase (String c r))) fieldInfo
  | _ => fieldInfo
  end.

Record Page : Type := mkPage {
  page_fields : list FieldInfo;
  totalCount : nat;
  filteredCount : nat;
  returnedCount : nat;
  page_offset : Z;
  page_limit : Z
}.

Section Tool.

(** The in-place [sort((a, b) => a.name.localeCompare(b.name))]. *)
Variable sortByName : list FieldInfo -> list FieldInfo.

Definition page (input : Input) (schema : IntrospectionSchema) : Page :=
  let limit := default 10%Z (limit input) in
  let offset := default 0%Z (offset input) in
  let fieldInfo := map fieldInfoOf (fields (fieldType input) schema) in
  let totalCount := length fieldInfo in
  let fieldInfo := applyFilter (filter input) fieldInfo in
  let fieldInfo := sortByName fieldInfo in
  let filteredCount := length fieldInfo in
  let fieldInfo := slice offset (offset + limit) fieldInfo in
  {| page_fields := fieldInfo;
     totalCount := totalCount;
     filteredCount := filteredCount;
     returnedCount := length fieldInfo;
     page_offset := offset;
     page_limit := limit |}.

Definition result (input : Input) (schema : IntrospectionSchema) : JSON :=
  let p := page input schema in
  JObject
    ([("fields",
       JArray (map (fun f => JObject [("name", JString (name f));
                                      ("description", JString (description f))])
                   (page_fields p)));
      ("totalCount", JNumber (Z.of_nat (totalCount p)));
      ("filteredCount", JNumber (Z.of_nat (filteredCount p)));
      ("returnedCount", JNumber (Z.of_nat (returnedCount p)));
      ("offset", JNumber (page_offset p));
      ("limit", JNumber (page_limit p))]
     ++ ListRootFieldsTool.warningKeys
          (ListRootFieldsTool.unsupportedTypes (fieldType input) schema))%list.

Definition execute (getIntrospectionSchema : M (Obj IntrospectionSchema))
    (input : Input) : M ToolResult :=
  tryCatch
    (schema <- getIntrospectionSchema ;;
     ret (mkToolResult (result input (value schema))))
    (fun error => throw error).

End Tool.

End ListRootFieldsToolExecute.

(** ** The variant of PreviewTableDataTool with an offset *)

Module PreviewTableDataTool_offset.

Record Input : Type := mkInput {
  tableName : string;
  limit : option Z;
  offset : option Z
}.

Definition previewQuery (tableName : string) (scalarFields : list string) : string :=
  " query PreviewData($limit: Int!, $offset: Int!) { " ++ tableName
  ++ "(limit: $limit, offset: $offset) { "
  ++ join (PreviewTableDataTool.newline ++ "          ") scalarFields ++ " } }".

(** [Array.isArray(tableData) ? tableData.length : 0] for
    [tableData = result[tableName] || []]; reading a property of a null
    result is a TypeError. *)
Definition returnedCount (result : JSON) (tableName : string) : Outcome nat :=
  match result with
  | JNull => Thrown (TypeError "Cannot read properties of null")
  | JObject members =>
      Returned match lookupKey tableName members with
               | Some (JArray rows) => length rows
               | _ => 0
               end
  | JArray items =>
      Returned match lookupKey tableName (indexed 0 items) with
               | Some (JArray rows) => length rows
               | _ => 0
               end
  | _ => Returned 0
  end.

Definition response (result : JSON) (count : nat) (limit offset : Z) : JSON :=
  JObject [("data", result);
           ("returnedCount", JNumber (Z.of_nat count));
           ("limit", JNumber limit);
           ("offset", JNumber offset)].

Definition execute (backend : Backend JSON)
    (getIntrospectionSchema : M (Obj IntrospectionSchema))
    (input : Input) : M ToolResult :=
  let limit := default 5%Z (limit input) in
  let offset := default 0%Z (offset input) in
  tryCatch
    (schema <- getIntrospectionSchema ;;
     match PreviewTableDataTool.findTable (tableName input) (value schema) with
     | None =>
         throw (Error ("Table (Object type) '" ++ tableName input
                       ++ "' not found in schema."))
     | Some tableType =>
         fields <- liftO (PreviewTableDataTool.scalarFields tableType) ;;
         result <- Index.makeGqlRequest backend
                     (previewQuery (tableName input) fields)
                     (Some (JObject [("limit", JNumber limit);
                                     ("offset", JNumber offset)])) ;;
         count <- liftO (returnedCount result (tableName input)) ;;
         ret (mkToolResult (response result count limit offset))
     end)
    (fun error => throw error).

End PreviewTableDataTool_offset.


(** ** Vocabulary for the further properties *)

(** An entry of the warning: a path with an original length above 100. *)
Definition IsNote (s : string) : Prop :=
  exists path n, 100 < n /\ s = RunGraphQLQueryTool.trimNote path n.

(** The state of [trimResult] after [notes] were pushed. *)
Definition noted (st : RunGraphQLQueryTool.TrimState) (notes : list string)
  : RunGraphQLQueryTool.TrimState :=
  {| RunGraphQLQueryTool.trimmed :=
       RunGraphQLQueryTool.trimmed st || negb (bool_decide (notes = []));
     RunGraphQLQueryTool.trimmedFields :=
       (RunGraphQLQueryTool.trimmedFields st ++ notes)%list |}.

(** What [makeGqlRequest] makes of the client's answer. *)
Definition normalised {T} (r : Response T) : Outcome T :=
  match r with
  | Resolved data => Returned data
  | Rejected (ClientError errors _) =>
      Thrown (Error ("GraphQL operation failed: " ++ Index.gqlErrors errors))
  | Rejected e => Thrown e
  end.

Definition isClientError (e : JsError) : bool :=
  match e with
  | ClientError _ _ => true
  | _ => false
  end.

(** The world after one more request. *)
Definition afterRequest (w : World) (r : Request) : World :=
  {| calls := (calls w ++ [r])%list; introspectionSchema := introspectionSchema w |}.

(** The aggregate request passes the tool's own validation. *)
Definition validAggregate (input : AggregateDataTool.Input) : Prop :=
  AggregateDataTool.aggregateFunction input = AggregateDataTool.count
  \/ exists name, AggregateDataTool.field input = Some name /\ name <> "".

(** The selection of a valid aggregate request. *)
Definition selectionOf (input : AggregateDataTool.Input) : string :=
  match AggregateDataTool.aggregateSelection (AggregateDataTool.aggregateFunction input)
          (AggregateDataTool.field input) with
  | Returned s => s
  | Thrown _ => ""
  end.

(** A backend that rejects every request with two GraphQL errors. *)
Definition deniedBackend : Backend JSON :=
  fun _ _ => Rejected (ClientError (Some ["field not found"; "permission denied"])
                         "GraphQL Error (Code: 200)").

(** A world whose cache holds a schema with the two sample tables. *)
Definition tablesWorld : World :=
  {| calls := [];
     introspectionSchema :=
       Some (mkObj 2 (mkSchema (Some (mkNamed "query_root")) None None
                        [postsTable; linksTable; mkType SCALAR "Int" None])) |}.

(** A backend that answers with three rows of posts. *)
Definition postsBackend : Backend JSON :=
  fun _ _ => Resolved (JObject [("posts", rowsOf 3)]).

(** * Properties *)

(** ** Facts about the string built-ins *)

Lemma prefix_spec (p s : string) :
  String.prefix p s = true <-> exists r, s = p ++ r.
Proof.
  revert s. induction p as [|a p IH]; intros s.
  - split; [intros _; exists s; reflexivity | intros _; destruct s; reflexivity].
  - destruct s as [|b s]; simpl.
    + split; [discriminate | intros [r Hr]; discriminate].
    + destruct (ascii_dec a b) as [->|Hne].
      * rewrite IH. split; intros [r Hr]; exists r; [now rewrite Hr | now inversion Hr].
      * split; [discriminate | intros [r Hr]; simpl in Hr; injection Hr as Hab _; congruence].
Qed.

Lemma white_not_letter (c : ascii) :
  isWhiteSpace c = true -> ~ (65 <= nat_of_ascii c <= 122).
Proof.
  intros H.
  destruct c as [[] [] [] [] [] [] [] []]; try discriminate H;
    unfold nat_of_ascii; simpl; lia.
Qed.

Lemma toLowerChar_white (c : ascii) :
  isWhiteSpace c = true -> toLowerChar c = c.
Proof.
  intros H. unfold toLowerChar.
  destruct c as [[] [] [] [] [] [] [] []]; try discriminate H; reflexivity.
Qed.

Lemma toLowerChar_letter (k c : ascii) :
  97 <= nat_of_ascii k <= 122 ->
  toLowerChar c = k <-> sameLetter k c.
Proof.
  intros Hk. unfold sameLetter, toLowerChar. cbv zeta.
  pose proof (nat_ascii_bounded c) as Hc.
  set (n := nat_of_ascii c) in *.
  destruct (65 <=? n)%nat eqn:H65; destruct (n <=? 90)%nat eqn:H90;
    destruct (192 <=? n)%nat eqn:H192; destruct (n <=? 222)%nat eqn:H222;
    destruct (n =? 215)%nat eqn:H215; cbn [andb orb negb];
    repeat match goal with
           | H : (_ <=? _)%nat = true |- _ => apply Nat.leb_le in H
           | H : (_ <=? _)%nat = false |- _ => apply Nat.leb_gt in H
           | H : (_ =? _)%nat = true |- _ => apply Nat.eqb_eq in H
           | H : (_ =? _)%nat = false |- _ => apply Nat.eqb_neq in H
           end;
    try lia;
    (split;
     [ intros <-; try rewrite nat_ascii_embedding in Hk by lia;
       first [ now left | right; rewrite nat_ascii_embedding by lia; lia | lia ]
     | intros [-> | [Heq Hr]];
       [ first [ reflexivity | fold n in Hk; lia ]
       | first [ rewrite Heq; apply ascii_nat_embedding | lia ] ] ]).
Qed.

Lemma append_nil (b : string) : "" ++ b = b.
Proof. reflexivity. Qed.

Lemma append_cons (x : ascii) (a b : string) : String x a ++ b = String x (a ++ b).
Proof. reflexivity. Qed.

Lemma append_empty_r (a : string) : a ++ "" = a.
Proof. induction a as [|x a IH]; [reflexivity | now rewrite append_cons, IH]. Qed.

Ltac string_simpl :=
  rewrite ?append_nil, ?append_cons in *;
  cbn [toLowerCase trimStart trimEnd allWhite lowerLetters String.prefix] in *.

Lemma trimStart_spec (s : string) :
  exists ws, s = ws ++ trimStart s /\ allWhite ws = true.
Proof.
  induction s as [|c s [ws [Hs Hw]]]; string_simpl.
  - exists "". split; reflexivity.
  - destruct (isWhiteSpace c) eqn:Hc.
    + exists (String c ws). string_simpl. rewrite Hc, Hw. split; [now rewrite <- Hs | reflexivity].
    + exists "". split; reflexivity.
Qed.

Lemma trimStart_app_white (ws : string) (c : ascii) (t : string) :
  allWhite ws = true -> isWhiteSpace c = false ->
  trimStart (ws ++ String c t) = String c t.
Proof.
  intros Hw Hc. induction ws as [|x ws IH]; string_simpl.
  - now rewrite Hc.
  - apply andb_true_iff in Hw as [Hx Hw]. rewrite Hx. now apply IH.
Qed.

Lemma trimEnd_spec (t : string) :
  exists ws, t = trimEnd t ++ ws /\ allWhite ws = true.
Proof.
  induction t as [|c t [ws [Ht Hw]]]; string_simpl.
  - exists "". split; reflexivity.
  - destruct (trimEnd t) as [|d r] eqn:Hr.
    + destruct (isWhiteSpace c) eqn:Hc.
      * exists (String c ws). string_simpl. rewrite Hc, Hw. split; [now rewrite <- Ht | reflexivity].
      * exists ws. string_simpl. split; [now rewrite <- Ht | assumption].
    + exists ws. string_simpl. split; [now rewrite <- Ht | assumption].
Qed.

(** White space appended to [a] cannot complete a prefix made of letters. *)
Lemma prefix_lower_app_white (p a ws : string) :
  lowerLetters p = true -> allWhite ws = true ->
  String.prefix p (toLowerCase (a ++ ws)) = String.prefix p (toLowerCase a).
Proof.
  revert a. induction p as [|k p IH]; intros a Hp Hw.
  - destruct (toLowerCase (a ++ ws)), (toLowerCase a); reflexivity.
  - cbn [lowerLetters] in Hp. apply andb_true_iff in Hp as [Hk Hp].
    apply andb_true_iff in Hk as [Hk1 Hk2]. apply Nat.leb_le in Hk1, Hk2.
    destruct a as [|x a]; string_simpl.
    + destruct ws as [|w ws]; string_simpl; [reflexivity |].
      apply andb_true_iff in Hw as [Hw _].
      rewrite (toLowerChar_white _ Hw).
      destruct (ascii_dec k w) as [->|]; [| reflexivity].
      exfalso. apply (white_not_letter _ Hw). lia.
    + destruct (ascii_dec k (toLowerChar x)); [now apply IH | reflexivity].
Qed.

Lemma prefix_lower_matches (p t : string) :
  lowerLetters p = true ->
  String.prefix p (toLowerCase t) = true <->
  exists kw rest, t = kw ++ rest /\ MatchesIgnoringCase p kw.
Proof.
  revert t. induction p as [|k p IH]; intros t Hp.
  - split.
    + intros _. exists "", t. split; [reflexivity | constructor].
    + intros _. destruct (toLowerCase t); reflexivity.
  - cbn [lowerLetters] in Hp. apply andb_true_iff in Hp as [Hk Hp].
    apply andb_true_iff in Hk as [Hk1 Hk2]. apply Nat.leb_le in Hk1, Hk2.
    destruct t as [|c t]; string_simpl.
    + split; [discriminate |].
      intros (kw & rest & Heq & Hm). inversion Hm; subst. discriminate.
    + destruct (ascii_dec k (toLowerChar c)) as [Hkc|Hkc].
      * rewrite (IH t Hp). split.
        -- intros (kw & rest & -> & Hm). exists (String c kw), rest.
           split; [reflexivity |]. constructor; [| assumption].
           apply toLowerChar_letter; [lia | now symmetry].
        -- intros (kw & rest & Heq & Hm). inversion Hm; subst.
           string_simpl. injection Heq as -> ->. eauto.
      * split; [discriminate |].
        intros (kw & rest & Heq & Hm). inversion Hm; subst.
        string_simpl. injection Heq as -> ->.
        exfalso. apply Hkc. symmetry. apply toLowerChar_letter; [lia | assumption].
Qed.

Lemma sameLetter_not_white (k c : ascii) :
  97 <= nat_of_ascii k <= 122 -> sameLetter k c -> isWhiteSpace c = false.
Proof.
  intros Hk Hs. destruct (isWhiteSpace c) eqn:Hc; [| reflexivity].
  exfalso. apply (white_not_letter _ Hc).
  destruct Hs as [-> | [Heq Hr]]; lia.
Qed.

(** The guard shared by the query and mutation tools. *)
Lemma mutation_guard (doc : string) :
  startsWith (toLowerCase (trim doc)) "mutation" = true <-> BeginsWithMutation doc.
Proof.
  unfold startsWith, trim.
  destruct (trimStart_spec doc) as (ws & Hdoc & Hws).
  destruct (trimEnd_spec (trimStart doc)) as (ws' & Ht & Hws').
  assert (Hsame : String.prefix "mutation" (toLowerCase (trimEnd (trimStart doc)))
                  = String.prefix "mutation" (toLowerCase (trimStart doc))).
  { rewrite Ht at 2. symmetry. now apply prefix_lower_app_white. }
  rewrite Hsame. rewrite prefix_lower_matches by reflexivity.
  split.
  - intros (kw & rest & Heq & Hm). exists ws, kw, rest.
    split; [now rewrite <- Heq | split; assumption].
  - intros (ws0 & kw & rest & Heq & Hw0 & Hm). exists kw, rest. split; [| assumption].
    inversion Hm as [|k c kw' s' Hkc Hm']; subst.
    string_simpl. apply trimStart_app_white; [assumption |].
    apply (sameLetter_not_white "m"); [unfold nat_of_ascii; simpl; lia | assumption].
Qed.

Lemma mutation_guard_false (doc : string) :
  startsWith (toLowerCase (trim doc)) "mutation" = false <-> ~ BeginsWithMutation doc.
Proof.
  rewrite <- mutation_guard. destruct (startsWith _ _); split; intros H;
    first [reflexivity | discriminate | congruence | (exfalso; now apply H)].
Qed.

(** ** Requests and rejections *)

Lemma world_grows (w : World) (r : Request) :
  {| calls := calls w ++ [r]; introspectionSchema := introspectionSchema w |} <> w.
Proof.
  intros H. apply (f_equal (fun x => length (calls x))) in H. simpl in H.
  rewrite length_app in H. simpl in H. lia.
Qed.

Lemma makeGqlRequest_world {T} (backend : Backend T) (q : string) (v : option JSON)
    (w : World) :
  snd (Index.makeGqlRequest backend q v w)
  = {| calls := calls w ++ [mkRequest q v]; introspectionSchema := introspectionSchema w |}.
Proof.
  unfold Index.makeGqlRequest, Index.gqlClient_request, tryCatch, throw.
  destruct (backend _ _) as [d|[m|m|errs m]]; reflexivity.
Qed.

(** A request followed by pure post-processing inside [try { } catch (e)
    { throw ... }] sends exactly that request. *)
Lemma request_then_return {T A} (backend : Backend T) (q : string) (v : option JSON)
    (k : T -> A) (handler : JsError -> M A) (w : World) :
  (forall e w', snd (handler e w') = w') ->
  sendsExactly
    (tryCatch (result <- Index.makeGqlRequest backend q v ;; ret (k result)) handler)
    w (mkRequest q v).
Proof.
  intros Hh. unfold sendsExactly, tryCatch, bind, ret.
  pose proof (makeGqlRequest_world backend q v w) as H.
  destruct (Index.makeGqlRequest backend q v w) as [[d|e] w']; simpl in *;
    [assumption | now rewrite Hh].
Qed.

Ltac sends_request :=
  apply request_then_return;
  let e := fresh "e" in
  intros e ?; destruct e as [?|?|[?|] ?]; reflexivity.

Lemma sendsExactly_not_rejected {A} (m : M A) (w : World) (r : Request) (msg : string) :
  sendsExactly m w r -> ~ rejectedBeforeNetwork m w msg.
Proof.
  unfold sendsExactly, rejectedBeforeNetwork. intros Hs Hr. rewrite Hr in Hs.
  simpl in Hs. symmetry in Hs. now apply world_grows in Hs.
Qed.

(** C3. The read-only tool rejects a document before any request is sent
    exactly when the document begins, after leading white space and ignoring
    case, with the keyword mutation; the mutation tool rejects exactly when it
    does not. A document that passes the check is sent once, verbatim. *)
Theorem C3_role_check (backend : Backend JSON) (w : World) (doc : string)
    (vars : option (list (string * JSON))) (force : option bool) :
  let readOnly := RunGraphQLQueryTool.execute backend
                    (RunGraphQLQueryTool.mkInput doc vars force) in
  let mutating := RunGraphQLMutationTool.execute backend
                    (RunGraphQLMutationTool.mkInput doc vars) in
  (rejectedBeforeNetwork readOnly w RunGraphQLQueryTool.readOnlyMessage
   <-> BeginsWithMutation doc)
  /\ (rejectedBeforeNetwork mutating w RunGraphQLMutationTool.notMutationMessage
      <-> ~ BeginsWithMutation doc)
  /\ (sendsExactly readOnly w (mkRequest doc (Some (JObject (default [] vars))))
      <-> ~ BeginsWithMutation doc)
  /\ (sendsExactly mutating w (mkRequest doc (option_map JObject vars))
      <-> BeginsWithMutation doc).
Proof.
  cbv zeta.
  unfold RunGraphQLQueryTool.execute, RunGraphQLMutationTool.execute. simpl.
  destruct (startsWith (toLowerCase (trim doc)) "mutation") eqn:Hg; simpl.
  - assert (Hb : BeginsWithMutation doc) by now apply mutation_guard.
    repeat split; try (intros; assumption); try (intros; reflexivity);
      try (intros; contradiction).
    + intros Hr Hn. eapply sendsExactly_not_rejected; [| exact Hr].
      sends_request.
    + intros Hs. exfalso. unfold sendsExactly, throw in Hs. simpl in Hs.
      symmetry in Hs. now apply world_grows in Hs.
    + intros _. sends_request.
  - assert (Hb : ~ BeginsWithMutation doc) by now apply mutation_guard_false.
    repeat split; try (intros; assumption); try (intros; reflexivity);
      try (intros; contradiction).
    + intros Hr. exfalso. eapply sendsExactly_not_rejected; [| exact Hr].
      sends_request.
    + intros _. sends_request.
    + intros Hs. exfalso. unfold sendsExactly, throw in Hs. simpl in Hs.
      symmetry in Hs. now apply world_grows in Hs.
Qed.

(** C3 on a mutation written in mixed case after two blanks, and on a query. *)
Lemma C3_role_check_witness :
  let doc := "  MuTaTion { delete_users(where: {}) { affected_rows } }" in
  BeginsWithMutation doc
  /\ rejectedBeforeNetwork
       (RunGraphQLQueryTool.execute echoBackend (RunGraphQLQueryTool.mkInput doc None None))
       emptyWorld RunGraphQLQueryTool.readOnlyMessage
  /\ sendsExactly
       (RunGraphQLMutationTool.execute echoBackend (RunGraphQLMutationTool.mkInput doc None))
       emptyWorld (mkRequest doc None)
  /\ ~ BeginsWithMutation usersQuery
  /\ rejectedBeforeNetwork
       (RunGraphQLMutationTool.execute echoBackend
          (RunGraphQLMutationTool.mkInput usersQuery None))
       emptyWorld RunGraphQLMutationTool.notMutationMessage.
Proof.
  cbv zeta.
  pose proof (C3_role_check echoBackend emptyWorld
                "  MuTaTion { delete_users(where: {}) { affected_rows } }" None None)
    as (Hq & _ & _ & Hm).
  pose proof (C3_role_check echoBackend emptyWorld usersQuery None None)
    as (_ & Hm' & _ & _).
  cbv zeta in *.
  assert (Hb : BeginsWithMutation
                 "  MuTaTion { delete_users(where: {}) { affected_rows } }")
    by (apply Hq; reflexivity).
  assert (Hn : ~ BeginsWithMutation usersQuery) by (apply Hm'; reflexivity).
  split; [exact Hb |]. split; [now apply Hq |]. split; [now apply Hm |].
  split; [exact Hn | now apply Hm'].
Defined.

(** ** The pre-flight ceiling *)

Lemma unboundedRequest_guard (input : RunGraphQLQueryTool_limit.Input) :
  negb (default false (RunGraphQLQueryTool_limit.forceBigQuery input))
  && RunGraphQLQueryTool_limit.limitMissingOrOver (RunGraphQLQueryTool_limit.limit input)
  = true <-> unboundedRequest input.
Proof.
  unfold unboundedRequest, RunGraphQLQueryTool_limit.limitMissingOrOver.
  destruct input as [q v l o f]; simpl.
  rewrite andb_true_iff, negb_true_iff. split.
  - intros [Hf Hl]. split.
    + destruct l as [l|]; [right; exists l; split; [reflexivity | now apply Z.ltb_lt] | now left].
    + destruct f as [[]|]; simpl in Hf; congruence.
  - intros [Hl Hf]. split.
    + destruct f as [[]|]; simpl; congruence.
    + destruct Hl as [-> | [l0 [-> Hl]]]; [reflexivity | now apply Z.ltb_lt].
Qed.

(** C2. Without an explicit limit, or with a limit above 100, and without the
    override, the tool throws before any request is sent; the limit rejection
    happens in no other case, and a read-only document that passes the check
    is sent once with the pagination values merged into its variables. *)
Theorem C2_preflight_ceiling (backend : Backend JSON) (w : World)
    (input : RunGraphQLQueryTool_limit.Input) :
  let m := RunGraphQLQueryTool_limit.execute backend input in
  let doc := RunGraphQLQueryTool_limit.query input in
  (unboundedRequest input ->
     rejectedBeforeNetwork m w
       (if startsWith (toLowerCase (trim doc)) "mutation"
        then RunGraphQLQueryTool_limit.readOnlyMessage
        else RunGraphQLQueryTool_limit.limitMessage))
  /\ (rejectedBeforeNetwork m w RunGraphQLQueryTool_limit.limitMessage
      <-> unboundedRequest input /\ ~ BeginsWithMutation doc)
  /\ (sendsExactly m w
        (mkRequest doc (Some (JObject (RunGraphQLQueryTool_limit.mergedVariables input))))
      <-> ~ unboundedRequest input /\ ~ BeginsWithMutation doc).
Proof.
  cbv zeta. unfold RunGraphQLQueryTool_limit.execute.
  pose proof (unboundedRequest_guard input) as Hu.
  pose proof (mutation_guard (RunGraphQLQueryTool_limit.query input)) as Hm.
  destruct (startsWith _ "mutation") eqn:Hg.
  - assert (Hb : BeginsWithMutation (RunGraphQLQueryTool_limit.query input))
      by now apply Hm.
    split; [intros _; reflexivity |]. split; split.
    + intros Hr. discriminate Hr.
    + intros [_ Hn]. contradiction.
    + intros Hs. exfalso. unfold sendsExactly, throw in Hs. simpl in Hs.
      symmetry in Hs. now apply world_grows in Hs.
    + intros [_ Hn]. contradiction.
  - assert (Hb : ~ BeginsWithMutation (RunGraphQLQueryTool_limit.query input)).
    { intros H. apply Hm in H. discriminate. }
    destruct (negb _ && _) eqn:Hc.
    + assert (Hun : unboundedRequest input) by now apply Hu.
      split; [intros _; reflexivity |]. split; split.
      * intros _. now split.
      * intros _. reflexivity.
      * intros Hs. exfalso. unfold sendsExactly, throw in Hs. simpl in Hs.
        symmetry in Hs. now apply world_grows in Hs.
      * intros [Hn _]. contradiction.
    + assert (Hun : ~ unboundedRequest input).
      { intros H. apply Hu in H. discriminate. }
      split; [intros H; contradiction |]. split; split.
      * intros Hr. exfalso. eapply sendsExactly_not_rejected; [| exact Hr].
        sends_request.
      * intros [H _]. contradiction.
      * intros _. now split.
      * intros _. sends_request.
Qed.

(** C2 on a query without limit and without override. *)
Lemma C2_preflight_ceiling_witness :
  let input := RunGraphQLQueryTool_limit.mkInput usersQuery None None None None in
  unboundedRequest input
  /\ rejectedBeforeNetwork (RunGraphQLQueryTool_limit.execute echoBackend input)
       emptyWorld RunGraphQLQueryTool_limit.limitMessage.
Proof.
  cbv zeta.
  assert (H : unboundedRequest
                (RunGraphQLQueryTool_limit.mkInput usersQuery None None None None))
    by (split; [now left | discriminate]).
  split; [exact H |].
  exact (proj1 (C2_preflight_ceiling echoBackend emptyWorld _) H).
Defined.

(** ** Aggregate selections *)

Lemma needsField_isCount (f : AggregateDataTool.AggregateFunction) :
  AggregateDataTool.isCount f = false <-> needsField f.
Proof.
  unfold needsField. destruct f; simpl; split; intros H;
    try discriminate; try reflexivity; try tauto;
    destruct H as [H | [H | [H | H]]]; discriminate.
Qed.

(** C7. The aggregate selection is [{ count }] for count and
    [{ <function> { <field> } }] for sum, avg, min and max; the document that
    is sent carries that selection; without a field, sum, avg, min and max are
    rejected before any request is sent. *)
Theorem C7_aggregate_selection (backend : Backend JSON) (w : World)
    (input : AggregateDataTool.Input) :
  let f := AggregateDataTool.aggregateFunction input in
  let m := AggregateDataTool.execute backend input in
  let sends selection :=
    sendsExactly m w
      (mkRequest (AggregateDataTool.aggregateQuery input selection)
                 (Some (AggregateDataTool.aggregateVariables input))) in
  (f = AggregateDataTool.count ->
     AggregateDataTool.aggregateSelection f (AggregateDataTool.field input)
       = Returned "{ count }"
     /\ sends "{ count }")
  /\ (needsField f ->
      forall name, AggregateDataTool.field input = Some name -> name <> "" ->
        AggregateDataTool.aggregateSelection f (AggregateDataTool.field input)
          = Returned ("{ " ++ AggregateDataTool.functionName f ++ " { " ++ name ++ " } }")
        /\ sends ("{ " ++ AggregateDataTool.functionName f ++ " { " ++ name ++ " } }"))
  /\ (needsField f ->
      AggregateDataTool.field input = None \/ AggregateDataTool.field input = Some "" ->
        rejectedBeforeNetwork m w (AggregateDataTool.requiredMessage f)).
Proof.
  cbv zeta. unfold AggregateDataTool.execute, AggregateDataTool.aggregateSelection.
  destruct input as [t f fld flt]; simpl.
  split; [| split].
  - intros ->. simpl. split; [reflexivity |].
    unfold bind at 1, liftO. simpl. sends_request.
  - intros Hf name -> Hname. apply needsField_isCount in Hf. rewrite Hf. simpl.
    apply String.eqb_neq in Hname. rewrite Hname. simpl. split; [reflexivity |].
    unfold bind at 1, liftO. simpl. sends_request.
  - intros Hf Hfld. apply needsField_isCount in Hf. rewrite Hf.
    destruct Hfld as [-> | ->]; reflexivity.
Qed.

(** C7 on the sum of a price. *)
Lemma C7_aggregate_selection_witness :
  needsField (AggregateDataTool.aggregateFunction sumOfPrice)
  /\ AggregateDataTool.aggregateSelection AggregateDataTool.sum (Some "price")
     = Returned "{ sum { price } }"
  /\ calls (snd (AggregateDataTool.execute echoBackend sumOfPrice emptyWorld))
     = [mkRequest (AggregateDataTool.aggregateQuery sumOfPrice "{ sum { price } }")
                  (Some (JObject []))].
Proof.
  assert (H : needsField (AggregateDataTool.aggregateFunction sumOfPrice))
    by (now left).
  split; [exact H |].
  destruct (proj1 (proj2 (C7_aggregate_selection echoBackend emptyWorld sumOfPrice))
              H "price" eq_refl) as [Hsel Hsend]; [discriminate |].
  split; [exact Hsel |].
  unfold sendsExactly in Hsend. now rewrite Hsend.
Defined.

(** ** The schema cache *)

Section CacheFacts.

Variable introspectionQuery : string.
Variable endpoint : Backend (option IntrospectionQuery).

Let get := Index.getIntrospectionSchema introspectionQuery endpoint.
Let fetch := mkRequest introspectionQuery None.

Lemma get_cached (w : World) (schema : Obj IntrospectionSchema) :
  introspectionSchema w = Some schema -> get w = (Returned schema, w).
Proof.
  intros H. unfold get, Index.getIntrospectionSchema, bind, getSchema.
  rewrite H. reflexivity.
Qed.

Lemma get_cached_successive (n : nat) (w : World) (schema : Obj IntrospectionSchema) :
  introspectionSchema w = Some schema ->
  successive n get w = (repeat (Returned schema) n, w).
Proof.
  intros H. induction n as [|n IH]; simpl; [reflexivity |].
  rewrite (get_cached w schema H), IH. reflexivity.
Qed.

Lemma get_fetch_ok (w : World) (schema : Obj IntrospectionSchema) :
  introspectionSchema w = None ->
  endpoint (length (calls w)) fetch = Resolved (Some (mkIntrospectionQuery (Some schema))) ->
  get w = (Returned schema,
           {| calls := (calls w ++ [fetch])%list; introspectionSchema := Some schema |}).
Proof.
  intros Hc He. unfold get, Index.getIntrospectionSchema, bind at 1, getSchema.
  rewrite Hc.
  unfold tryCatch at 1, bind at 1, Index.makeGqlRequest, tryCatch, Index.gqlClient_request.
  fold fetch. rewrite He. reflexivity.
Qed.

Lemma get_fetch_fails (w : World) (cause : string) :
  introspectionSchema w = None ->
  fetchFailure (endpoint (length (calls w)) fetch) = Some cause ->
  get w = (Thrown (Error ("Failed to get GraphQL schema: " ++ cause)),
           {| calls := (calls w ++ [fetch])%list; introspectionSchema := None |}).
Proof.
  intros Hc Hf. unfold get, Index.getIntrospectionSchema, bind at 1, getSchema.
  rewrite Hc.
  unfold tryCatch at 1, bind at 1, Index.makeGqlRequest, tryCatch, Index.gqlClient_request.
  fold fetch. unfold fetchFailure in Hf.
  destruct (endpoint (length (calls w)) fetch) as [[[[s|]]|]|[m|m|errs m]];
    simpl in *; try discriminate Hf; injection Hf as <-; reflexivity.
Qed.

Lemma get_empty_fetches (w : World) :
  introspectionSchema w = None -> calls (snd (get w)) = (calls w ++ [fetch])%list.
Proof.
  intros Hc.
  destruct (fetchFailure (endpoint (length (calls w)) fetch)) as [cause|] eqn:Hf.
  - now rewrite (get_fetch_fails w cause Hc Hf).
  - unfold fetchFailure in Hf.
    destruct (endpoint (length (calls w)) fetch) as [[[[s|]]|]|[m|m|errs m]] eqn:He;
      try discriminate Hf.
    now rewrite (get_fetch_ok w s Hc He).
Qed.

End CacheFacts.

(** C5. While the cache is populated every call returns the cached object
    itself and sends nothing; a successful fetch populates the cache with the
    object received; a failed fetch reports its cause to the caller and leaves
    the cache empty; and with an empty cache every call sends the
    introspection request again. *)
Theorem C5_schema_cache (introspectionQuery : string)
    (endpoint : Backend (option IntrospectionQuery)) (w : World) :
  let get := Index.getIntrospectionSchema introspectionQuery endpoint in
  let fetch := mkRequest introspectionQuery None in
  (forall schema n,
     introspectionSchema w = Some schema ->
     successive n get w = (repeat (Returned schema) n, w))
  /\ (forall schema n,
        introspectionSchema w = None ->
        endpoint (length (calls w)) fetch
          = Resolved (Some (mkIntrospectionQuery (Some schema))) ->
        successive (S n) get w
          = (repeat (Returned schema) (S n),
             {| calls := (calls w ++ [fetch])%list; introspectionSchema := Some schema |}))
  /\ (forall cause,
        introspectionSchema w = None ->
        fetchFailure (endpoint (length (calls w)) fetch) = Some cause ->
        let w' := {| calls := (calls w ++ [fetch])%list; introspectionSchema := None |} in
        get w = (Thrown (Error ("Failed to get GraphQL schema: " ++ cause)), w')
        /\ calls (snd (get w')) = (calls w ++ [fetch; fetch])%list).
Proof.
  cbv zeta. split; [| split].
  - intros schema n H. now apply get_cached_successive.
  - intros schema n Hc He. cbn [successive].
    rewrite (get_fetch_ok _ _ w schema Hc He).
    rewrite (get_cached_successive _ _ n _ schema) by reflexivity. reflexivity.
  - intros cause Hc Hf. split.
    + now apply get_fetch_fails.
    + rewrite get_empty_fetches by reflexivity. simpl.
      rewrite <- app_assoc. reflexivity.
Qed.

(** C5 on three successive calls: a failed fetch, a fetch, a cache hit. *)
Lemma C5_schema_cache_witness :
  let get := Index.getIntrospectionSchema "{ __schema }" flakyEndpoint in
  let fetch := mkRequest "{ __schema }" None in
  successive 3 get emptyWorld
  = ([Thrown (Error "Failed to get GraphQL schema: connect ECONNREFUSED");
      Returned cachedObject; Returned cachedObject],
     {| calls := [fetch; fetch]; introspectionSchema := Some cachedObject |}).
Proof.
  cbv zeta.
  destruct (C5_schema_cache "{ __schema }" flakyEndpoint emptyWorld)
    as (_ & _ & Hfail).
  destruct (Hfail "connect ECONNREFUSED" eq_refl eq_refl) as [Hfirst _].
  destruct (C5_schema_cache "{ __schema }" flakyEndpoint
              {| calls := [mkRequest "{ __schema }" None]; introspectionSchema := None |})
    as (_ & Hok & _).
  specialize (Hok cachedObject 1 eq_refl eq_refl).
  change (successive 3 ?m ?w) with
    (let '(o, w1) := m w in let '(os, w2) := successive 2 m w1 in (o :: os, w2)).
  rewrite Hfirst. simpl app. rewrite Hok. reflexivity.
Defined.

(** ** Type references *)

Lemma TypeKind_eqb_eq (a b : TypeKind) : TypeKind_eqb a b = true <-> a = b.
Proof. destruct a, b; simpl; split; intros H; congruence. Qed.

(** Induction along the [ofType] chain. *)
Lemma TypeRef_chain_ind (P : TypeRef -> Prop) :
  (forall k n, P (mkTypeRef k n None)) ->
  (forall k n t, P t -> P (mkTypeRef k n (Some t))) ->
  forall t, P t.
Proof.
  intros Hend Hwrap. fix IH 1. intros [k n [t|]].
  - apply Hwrap, IH.
  - apply Hend.
Qed.

Lemma wrappers_only (t : TypeRef) (k : TypeKind) :
  hasLayer k t -> k = LIST \/ k = NON_NULL.
Proof.
  unfold hasLayer. induction t as [kd n | kd n t IH] using TypeRef_chain_ind;
    destruct kd; simpl; intros H; try contradiction;
    destruct H as [<- | H]; auto; contradiction.
Qed.

Lemma chain_cases (t : TypeRef) :
  (exists k n, EndsIn t k n) \/ Dangling t.
Proof.
  induction t as [kd n | kd n t [(k & n' & IH) | IH]] using TypeRef_chain_ind.
  - destruct kd;
      first [ right; constructor; fail
            | left; eexists _, n; apply ends_named; discriminate ].
  - destruct kd;
      first [ left; exists k, n'; constructor; assumption
            | left; eexists _, n; apply ends_named; discriminate ].
  - destruct kd;
      first [ right; constructor; assumption
            | left; eexists _, n; apply ends_named; discriminate ].
Qed.

Lemma EndsIn_not_Dangling (t : TypeRef) (k : TypeKind) (n : option string) :
  EndsIn t k n -> ~ Dangling t.
Proof.
  induction 1 as [k n o Hl Hn | n t k' n' H IH | n t k' n' H IH]; intros Hd;
    inversion Hd; subst; try congruence; now apply IH.
Qed.

(** *** The two unwrapping loops *)

Lemma preview_unwrap_EndsIn (t : TypeRef) (k : TypeKind) (n : option string) :
  EndsIn t k n ->
  exists o, PreviewTableDataTool.unwrap t = Returned (mkTypeRef k n o).
Proof.
  induction 1 as [k n o Hl Hn | n t k' n' H IH | n t k' n' H IH]; simpl.
  - exists o. destruct k; congruence.
  - exact IH.
  - exact IH.
Qed.

Lemma preview_unwrap_Dangling (t : TypeRef) :
  Dangling t ->
  PreviewTableDataTool.unwrap t
  = Thrown (TypeError "Cannot read properties of undefined (reading 'kind')").
Proof. induction 1; simpl; auto. Qed.

Lemma existsb_In_kind (k : TypeKind) (l : list TypeKind) :
  existsb (TypeKind_eqb k) l = true <-> In k l.
Proof.
  rewrite existsb_exists. split.
  - intros (x & Hx & Heq). apply TypeKind_eqb_eq in Heq. now subst.
  - intros H. exists k. split; [assumption | now apply TypeKind_eqb_eq].
Qed.

Lemma describe_loop_EndsIn (t : TypeRef) (k : TypeKind) (n : option string) :
  EndsIn t k n ->
  forall nn l,
    DescribeTableTool.unwrapLoop t nn l
    = DescribeTableTool.mkUnwrapped (DescribeTableTool.nameOrUnknown n)
        (nn || existsb (TypeKind_eqb NON_NULL) (wrappers t))
        (l || existsb (TypeKind_eqb LIST) (wrappers t)).
Proof.
  induction 1 as [k n o Hl Hn | n t k' n' H IH | n t k' n' H IH]; intros nn l; simpl.
  - destruct k; try congruence; simpl; now rewrite !orb_false_r.
  - rewrite IH. now rewrite orb_true_l, orb_true_r.
  - rewrite IH. now rewrite orb_true_l, orb_true_r.
Qed.

Lemma describe_loop_Dangling (t : TypeRef) :
  Dangling t ->
  forall nn l,
    DescribeTableTool.unwrapLoop t nn l
    = DescribeTableTool.mkUnwrapped ""
        (nn || existsb (TypeKind_eqb NON_NULL) (wrappers t))
        (l || existsb (TypeKind_eqb LIST) (wrappers t)).
Proof.
  induction 1 as [n | n | n t H IH | n t H IH]; intros nn l; simpl;
    rewrite ?IH, ?orb_true_l, ?orb_true_r, ?orb_false_r; reflexivity.
Qed.

Lemma wrapped_EndsIn (d : nat) (t : TypeRef) (k : TypeKind) (n : option string) :
  EndsIn t k n -> EndsIn (wrapped d t) k n.
Proof.
  intros H. induction d as [|d IH]; [exact H |].
  cbn [wrapped]. destruct (Nat.even (S d)); now constructor.
Qed.

Lemma wrapped_depth (d : nat) (t : TypeRef) :
  length (wrappers (wrapped d t)) = d + length (wrappers t).
Proof.
  induction d as [|d IH]; [reflexivity |].
  cbn [wrapped]. destruct (Nat.even (S d)); simpl; now rewrite IH.
Qed.

(** C4 (as the code has it). Neither unwrapping loop has a depth bound or an
    error of its own. A chain that ends in a named node, whatever its depth,
    is resolved by both loops: the preview loop returns that node, the
    describe_table loop returns its name (or unknown when the name is
    missing) with isList and isNonNull telling whether a LIST and a NON_NULL
    layer occur in the chain. A chain that ends in a wrapper without inner
    type is resolved by describe_table to the empty name, without an error. *)
Theorem C4_resolver_total (t : TypeRef) :
  ((exists k n, EndsIn t k n) \/ Dangling t)
  /\ (forall k n,
        EndsIn t k n ->
        (exists o, PreviewTableDataTool.unwrap t = Returned (mkTypeRef k n o))
        /\ exists nonNull list,
             DescribeTableTool.unwrap t
             = DescribeTableTool.mkUnwrapped (DescribeTableTool.nameOrUnknown n)
                 nonNull list
             /\ (nonNull = true <-> hasLayer NON_NULL t)
             /\ (list = true <-> hasLayer LIST t))
  /\ (Dangling t ->
      exists nonNull list,
        DescribeTableTool.unwrap t = DescribeTableTool.mkUnwrapped "" nonNull list
        /\ (nonNull = true <-> hasLayer NON_NULL t)
        /\ (list = true <-> hasLayer LIST t)).
Proof.
  split; [apply chain_cases |]. split.
  - intros k n H. split; [now apply preview_unwrap_EndsIn |].
    eexists _, _. unfold DescribeTableTool.unwrap.
    rewrite (describe_loop_EndsIn t k n H). simpl.
    split; [reflexivity |]. split; apply existsb_In_kind.
  - intros H. eexists _, _. unfold DescribeTableTool.unwrap.
    rewrite (describe_loop_Dangling t H). simpl.
    split; [reflexivity |]. split; apply existsb_In_kind.
Qed.

(** C4 on a chain of sixty-four wrappers around String. *)
Lemma C4_resolver_total_witness :
  let deep := wrapped 64 stringRef in
  EndsIn deep SCALAR (Some "String")
  /\ (exists o, PreviewTableDataTool.unwrap deep = Returned (mkTypeRef SCALAR (Some "String") o))
  /\ exists nonNull list,
       DescribeTableTool.unwrap deep = DescribeTableTool.mkUnwrapped "String" nonNull list
       /\ (nonNull = true <-> hasLayer NON_NULL deep)
       /\ (list = true <-> hasLayer LIST deep).
Proof.
  cbv zeta.
  assert (H : EndsIn (wrapped 64 stringRef) SCALAR (Some "String"))
    by (apply wrapped_EndsIn; constructor; discriminate).
  split; [exact H |].
  exact (proj1 (proj2 (C4_resolver_total (wrapped 64 stringRef))) SCALAR (Some "String") H).
Defined.

(** C4, refuted as stated: a chain of sixty-four wrappers is resolved by both
    loops, and a NON_NULL of a LIST of nothing is rendered as a column of
    type []! instead of being reported. *)
Lemma C4_no_depth_bound_no_error :
  let deep := wrapped 64 stringRef in
  let open := mkTypeRef NON_NULL None (Some (mkTypeRef LIST None None)) in
  length (wrappers deep) = 64
  /\ PreviewTableDataTool.unwrap deep = Returned stringRef
  /\ DescribeTableTool.unwrap deep = DescribeTableTool.mkUnwrapped "String" true true
  /\ Dangling open
  /\ DescribeTableTool.columnInfo (mkField "tags" None open None)
     = Returned (DescribeTableTool.mkColumnInfo "tags" "[]!" None None).
Proof.
  cbv zeta. repeat split; try reflexivity. repeat constructor.
Qed.

(** C9 (as the code has it). For a chain that ends in a node named [name],
    the column type is [name] in brackets when a LIST layer occurs in the
    chain and the plain name otherwise, followed by ! exactly when a NON_NULL
    layer occurs anywhere in the chain. *)
Theorem C9_display_string (t : TypeRef) (k : TypeKind) (name : string) :
  EndsIn t k (Some name) -> name <> "" ->
  exists list nonNull,
    (list = true <-> hasLayer LIST t)
    /\ (nonNull = true <-> hasLayer NON_NULL t)
    /\ DescribeTableTool.fullTypeString (DescribeTableTool.unwrap t)
       = rendering name list nonNull.
Proof.
  intros H Hname. eexists _, _. split; [| split]; [apply existsb_In_kind .. |].
  unfold DescribeTableTool.unwrap. rewrite (describe_loop_EndsIn t k _ H).
  unfold DescribeTableTool.fullTypeString, rendering. simpl.
  apply String.eqb_neq in Hname. rewrite Hname.
  destruct (existsb (TypeKind_eqb LIST) (wrappers t)),
           (existsb (TypeKind_eqb NON_NULL) (wrappers t)); simpl;
    rewrite ?append_empty_r; reflexivity.
Qed.

(** C9 on a non-null list of Strings. *)
Lemma C9_display_string_witness :
  let t := mkTypeRef NON_NULL None (Some (mkTypeRef LIST None (Some stringRef))) in
  EndsIn t SCALAR (Some "String")
  /\ "String" <> ""
  /\ exists list nonNull,
       (list = true <-> hasLayer LIST t)
       /\ (nonNull = true <-> hasLayer NON_NULL t)
       /\ DescribeTableTool.fullTypeString (DescribeTableTool.unwrap t)
          = rendering "String" list nonNull.
Proof.
  cbv zeta.
  assert (He : EndsIn (mkTypeRef NON_NULL None
                         (Some (mkTypeRef LIST None (Some stringRef))))
                      SCALAR (Some "String"))
    by (repeat constructor; discriminate).
  assert (Hn : "String" <> "") by discriminate.
  split; [exact He |]. split; [exact Hn |].
  exact (C9_display_string _ SCALAR "String" He Hn).
Defined.

(** C9, refuted as stated: a list of non-null Strings has LIST as its outer
    layer, and its column type still ends in an exclamation mark. *)
Lemma C9_inner_non_null_is_shown :
  let t := mkTypeRef LIST None (Some (mkTypeRef NON_NULL None (Some stringRef))) in
  wrappers t = [LIST; NON_NULL]
  /\ DescribeTableTool.fullTypeString (DescribeTableTool.unwrap t) = "[String]!".
Proof. cbv zeta. split; reflexivity. Qed.

(** ** Field projection *)

Lemma EndsIn_functional (t : TypeRef) (k k' : TypeKind) (n n' : option string) :
  EndsIn t k n -> EndsIn t k' n' -> k = k' /\ n = n'.
Proof.
  induction 1 as [k n o Hl Hn | n t k1 n1 H IH | n t k1 n1 H IH]; intros H';
    inversion H'; subst; try congruence; auto.
Qed.

Lemma Projects_functional (fields : list IntrospectionField) (kept kept' : list string) :
  Projects fields kept -> Projects fields kept' -> kept = kept'.
Proof.
  intros H. revert kept'.
  induction H as [| f fields kept k n He Hk H IH | f fields kept k n He Hk H IH];
    intros kept' H'; inversion H' as [| ? ? ? k' n' He' Hk' H'' | ? ? ? k' n' He' Hk' H''];
    subst; try reflexivity;
    destruct (EndsIn_functional _ _ _ _ _ He He') as [-> _];
    try contradiction; [f_equal |]; now apply IH.
Qed.

Lemma isScalarOrEnum_EndsIn (f : IntrospectionField) (k : TypeKind) (n : option string) :
  EndsIn (field_type f) k n ->
  exists b, PreviewTableDataTool.isScalarOrEnum f = Returned b
            /\ (b = true <-> scalarOrEnum k).
Proof.
  intros H. unfold PreviewTableDataTool.isScalarOrEnum.
  destruct (preview_unwrap_EndsIn _ _ _ H) as [o ->]. simpl.
  eexists. split; [reflexivity |].
  unfold scalarOrEnum. rewrite orb_true_iff, !TypeKind_eqb_eq. reflexivity.
Qed.

Lemma filter_Projects (fields : list IntrospectionField) :
  (forall f, In f fields -> exists k n, EndsIn (field_type f) k n) ->
  exists keptFields,
    filterO PreviewTableDataTool.isScalarOrEnum fields = Returned keptFields
    /\ Projects fields (map field_name keptFields).
Proof.
  induction fields as [|f fields IH]; intros Hwf.
  - exists []. split; [reflexivity | constructor].
  - destruct IH as (kept & Hfilter & Hproj).
    { intros g Hg. apply Hwf. now right. }
    destruct (Hwf f (or_introl eq_refl)) as (k & n & He).
    destruct (isScalarOrEnum_EndsIn f k n He) as (b & Hb & Hiff).
    cbn [filterO]. rewrite Hb, Hfilter. simpl.
    destruct b.
    + exists (f :: kept). split; [reflexivity |]. simpl.
      apply projects_keep with k n; [assumption | now apply Hiff | assumption].
    + exists kept. split; [reflexivity |].
      apply projects_drop with k n; [assumption | | assumption].
      intros Hk. apply Hiff in Hk. discriminate.
Qed.

(** A run of the preview tool on a populated cache adds to the world only
    the requests [sent], which depend on the cached schema and the input
    alone; the cache itself is left as it was. *)
Lemma preview_run_pure (introspectionQuery : string)
    (endpoint : Backend (option IntrospectionQuery)) (backend : Backend JSON)
    (schema : Obj IntrospectionSchema) (input : PreviewTableDataTool.Input) :
  exists sent,
    forall w,
      introspectionSchema w = Some schema ->
      snd (PreviewTableDataTool.execute backend
             (Index.getIntrospectionSchema introspectionQuery endpoint) input w)
      = {| calls := (calls w ++ sent)%list; introspectionSchema := Some schema |}.
Proof.
  pose (sent :=
    match PreviewTableDataTool.findTable (PreviewTableDataTool.tableName input)
            (value schema) with
    | None => []
    | Some tableType =>
        match PreviewTableDataTool.scalarFields tableType with
        | Returned fields =>
            [mkRequest
               (PreviewTableDataTool.previewQuery
                  (PreviewTableDataTool.tableName input) fields)
               (Some (JObject [("limit", JNumber (PreviewTableDataTool.limit input))]))]
        | Thrown _ => []
        end
    end).
  exists sent. intros w Hc.
  assert (Hsame : forall w0 : World, introspectionSchema w0 = Some schema ->
            {| calls := (calls w0 ++ [])%list; introspectionSchema := Some schema |} = w0).
  { intros [c s] Hs. simpl in *. rewrite app_nil_r. now subst. }
  unfold PreviewTableDataTool.execute, tryCatch at 1, bind at 1.
  rewrite (get_cached _ _ w schema Hc). subst sent.
  destruct (PreviewTableDataTool.findTable _ _) as [tableType|].
  - unfold bind at 1, liftO.
    destruct (PreviewTableDataTool.scalarFields tableType) as [fields|e].
    + unfold bind, ret.
      pose proof (makeGqlRequest_world backend
                    (PreviewTableDataTool.previewQuery
                       (PreviewTableDataTool.tableName input) fields)
                    (Some (JObject [("limit", JNumber (PreviewTableDataTool.limit input))]))
                    w) as Hw.
      destruct (Index.makeGqlRequest backend _ _ w) as [[d|e] w']; simpl in *;
        rewrite Hw, Hc; reflexivity.
    + simpl. now rewrite Hsame.
  - simpl. now rewrite Hsame.
Qed.

(** C6. When every field of an object type has a chain ending in a named
    node, the projection is the list of names, in the original order, of
    exactly the fields whose chain ends in a SCALAR or an ENUM, and the single
    name __typename when there is none; a type without a field list projects
    to __typename as well; and a run of the preview tool on a populated cache
    leaves the cache untouched, so that a second run projects the same. *)
Theorem C6_field_projection (tableType : IntrospectionType) :
  (forall fields,
     type_fields tableType = Some fields ->
     (forall f, In f fields -> exists k n, EndsIn (field_type f) k n) ->
     exists kept,
       Projects fields kept
       /\ (forall kept', Projects fields kept' -> kept' = kept)
       /\ PreviewTableDataTool.scalarFields tableType = Returned (withFallback kept))
  /\ (type_fields tableType = None ->
      PreviewTableDataTool.scalarFields tableType = Returned ["__typename"])
  /\ (forall introspectionQuery endpoint backend schema input,
      exists sent,
        forall w,
          introspectionSchema w = Some schema ->
          let run := PreviewTableDataTool.execute backend
                       (Index.getIntrospectionSchema introspectionQuery endpoint) input in
          snd (run w)
            = {| calls := (calls w ++ sent)%list; introspectionSchema := Some schema |}
          /\ snd (run (snd (run w)))
             = {| calls := ((calls w ++ sent) ++ sent)%list;
                  introspectionSchema := Some schema |}).
Proof.
  split; [| split].
  - intros fields Hf Hwf.
    destruct (filter_Projects fields Hwf) as (keptFields & Hfilter & Hproj).
    exists (map field_name keptFields). split; [assumption |]. split.
    + intros kept' H'. now apply (Projects_functional fields).
    + unfold PreviewTableDataTool.scalarFields. rewrite Hf, Hfilter. simpl.
      destruct (map field_name keptFields); reflexivity.
  - intros Hf. unfold PreviewTableDataTool.scalarFields. now rewrite Hf.
  - intros q endpoint backend schema input.
    destruct (preview_run_pure q endpoint backend schema input) as (sent & Hsent).
    exists sent. intros w Hc. cbv zeta.
    rewrite (Hsent w Hc). split; [reflexivity |].
    now rewrite Hsent.
Qed.

(** C6 on a table with scalar, object-list and enum fields, and on a table
    without scalar fields. *)
Lemma C6_field_projection_witness :
  PreviewTableDataTool.scalarFields postsTable = Returned ["id"; "status"]
  /\ PreviewTableDataTool.scalarFields linksTable = Returned ["__typename"].
Proof.
  assert (Hposts : Projects (default [] (type_fields postsTable)) ["id"; "status"]).
  { simpl. eapply projects_keep with (k := SCALAR);
      [repeat constructor; discriminate | now left |].
    eapply projects_drop with (k := OBJECT);
      [repeat constructor; discriminate | intros [H | H]; discriminate |].
    eapply (projects_keep (mkField "status" None _ None)) with (k := ENUM);
      [repeat constructor; discriminate | now right | constructor]. }
  assert (Hlinks : Projects (default [] (type_fields linksTable)) []).
  { simpl. eapply projects_drop with (k := OBJECT);
      [repeat constructor; discriminate | intros [H | H]; discriminate |].
    eapply projects_drop with (k := UNION);
      [repeat constructor; discriminate | intros [H | H]; discriminate | constructor]. }
  split.
  - destruct (proj1 (C6_field_projection postsTable) _ eq_refl)
      as (kept & _ & Huniq & ->).
    + intros f [<- | [<- | [<- | []]]]; eexists _, _; repeat constructor; discriminate.
    + now rewrite <- (Huniq _ Hposts).
  - destruct (proj1 (C6_field_projection linksTable) _ eq_refl)
      as (kept & _ & Huniq & ->).
    + intros f [<- | [<- | []]]; eexists _, _; repeat constructor; discriminate.
    + now rewrite <- (Huniq _ Hlinks).
Defined.

(** ** Root-type classification *)

Lemma endsWith_spec (s suffix : string) :
  endsWith s suffix = true <-> exists stem, s = stem ++ suffix.
Proof.
  induction s as [|c s IH]; cbn [endsWith].
  - rewrite orb_false_r, String.eqb_eq. split.
    + intros <-. now exists "".
    + intros [[|x stem] H]; [now rewrite append_nil in H | discriminate].
  - rewrite orb_true_iff, String.eqb_eq, IH. split.
    + intros [<- | [stem ->]]; [now exists "" | now exists (String c stem)].
    + intros [[|x stem] H].
      * left. now rewrite append_nil in H.
      * right. rewrite append_cons in H. injection H as _ ->. now exists stem.
Qed.

Lemma Selected_filter {A B} (P : A -> Prop) (p : A -> bool) (f : A -> B) (l : list A) :
  (forall x, p x = true <-> P x) ->
  Selected P f l (map f (List.filter p l)).
Proof.
  intros Hp. induction l as [|x l IH]; simpl; [constructor |].
  destruct (p x) eqn:Hx; simpl.
  - apply selected_keep; [now apply Hp | assumption].
  - apply selected_drop; [| assumption]. intros H. apply Hp in H. congruence.
Qed.

Lemma Selected_In {A B} (P : A -> Prop) (f : A -> B) (l : list A) (out : list B) :
  Selected P f l out ->
  forall y, In y out <-> exists x, In x l /\ P x /\ y = f x.
Proof.
  induction 1 as [| x l out Hx H IH | x l out Hx H IH]; intros y; simpl.
  - split; [contradiction | intros (x & [] & _)].
  - rewrite IH. split.
    + intros [<- | (x' & Hin & Hp & ->)]; eauto 6.
    + intros (x' & [<- | Hin] & Hp & ->); eauto 6.
  - rewrite IH. split.
    + intros (x' & Hin & Hp & ->); eauto 6.
    + intros (x' & [<- | Hin] & Hp & ->); [contradiction | eauto 6].
Qed.

(** The [forEach] loop with a push guarded by [c]. *)
Lemma forEach_push {A B} (c : A -> bool) (g : A -> B) (l : list A) (acc : list B) :
  fold_left (fun acc t => if c t then (acc ++ [g t])%list else acc) l acc
  = (acc ++ map g (List.filter c l))%list.
Proof.
  revert acc. induction l as [|x l IH]; intros acc; simpl.
  - now rewrite app_nil_r.
  - rewrite IH. destruct (c x); simpl; [now rewrite <- app_assoc | reflexivity].
Qed.

Lemma filter_all {A} (c : A -> bool) (l : list A) :
  (forall x, In x l -> c x = true) -> List.filter c l = l.
Proof.
  induction l as [|x l IH]; intros H; simpl; [reflexivity |].
  rewrite (H x (or_introl eq_refl)). f_equal. apply IH. intros y Hy. apply H. now right.
Qed.

Lemma includes_spec (l : list string) (x : string) :
  CheckUnsupportedRootTypesTool.includes l x = true <-> In x l.
Proof.
  unfold CheckUnsupportedRootTypesTool.includes. rewrite existsb_exists. split.
  - intros (y & Hy & Heq). apply String.eqb_eq in Heq. now subst.
  - intros H. exists x. split; [assumption | apply String.eqb_refl].
Qed.

Lemma rootTypeNames_spec (schema : IntrospectionSchema) (name : string) :
  In name (CheckUnsupportedRootTypesTool.rootTypeNames schema)
  <-> canonicalRoot schema name /\ name <> "".
Proof.
  unfold CheckUnsupportedRootTypesTool.rootTypeNames, canonicalRoot.
  rewrite filter_In, negb_true_iff, String.eqb_neq.
  destruct schema as [[[q]|] [[m]|] [[s]|] ts]; simpl; split;
    intros [H Hne]; (split; [| exact Hne]); intuition congruence.
Qed.

Lemma supportedTypes_spec (schema : IntrospectionSchema) (name : string) :
  name ∈ CheckUnsupportedRootTypesTool.supportedTypes schema
  <-> canonicalRoot schema name.
Proof.
  unfold CheckUnsupportedRootTypesTool.supportedTypes,
    CheckUnsupportedRootTypesTool.addRoot, canonicalRoot.
  destruct schema as [[[q]|] [[m]|] [[s]|] ts]; simpl;
    rewrite ?elem_of_union, ?elem_of_singleton, ?elem_of_empty;
    split; intros H; intuition congruence.
Qed.

Lemma listRootFields_supported_canonical (fieldType : option ListRootFieldsTool.FieldType)
    (schema : IntrospectionSchema) (name : string) :
  name ∈ ListRootFieldsTool.supportedTypes fieldType schema ->
  canonicalRoot schema name.
Proof.
  unfold ListRootFieldsTool.supportedTypes, ListRootFieldsTool.addRoot, canonicalRoot.
  destruct schema as [[[q]|] [[m]|] [[s]|] ts]; simpl;
    repeat match goal with
           | |- context [if ?b then _ else _] => destruct b
           end;
    rewrite ?elem_of_union, ?elem_of_singleton, ?elem_of_empty;
    intros H; intuition congruence.
Qed.

Lemma suffix_nonempty (name stem : string) : name = stem ++ "_root" -> name <> "".
Proof. intros -> H. destruct stem; discriminate. Qed.

(** The filter of both tools selects the suspect types. *)
Lemma suspect_filter (schema : IntrospectionSchema) (t : IntrospectionType) :
  TypeKind_eqb (type_kind t) OBJECT
  && endsWith (type_name t) "_root"
  && negb (CheckUnsupportedRootTypesTool.includes
             (CheckUnsupportedRootTypesTool.rootTypeNames schema) (type_name t))
  && negb (startsWith (type_name t) "__") = true
  <-> Suspect schema t.
Proof.
  unfold Suspect, startsWith.
  rewrite !andb_true_iff, !negb_true_iff, TypeKind_eqb_eq, endsWith_spec.
  rewrite <- !not_true_iff_false, includes_spec, rootTypeNames_spec, prefix_spec.
  split.
  - intros [[[Hk Hs] Hr] Hp]. repeat split; try assumption.
    intros Hc. apply Hr. split; [assumption |].
    destruct Hs as [stem Hs]. now apply (suffix_nonempty _ stem).
  - intros (Hk & Hs & Hr & Hp). repeat split; try assumption.
    intros [Hc _]. now apply Hr.
Qed.

Lemma check_unsupported_selected (schema : IntrospectionSchema) :
  Selected (Suspect schema)
    (fun t => CheckUnsupportedRootTypesTool.mkUnsupported (type_name t)
                (CheckUnsupportedRootTypesTool.fieldCountOf t))
    (types schema) (CheckUnsupportedRootTypesTool.unsupportedTypes schema).
Proof.
  unfold CheckUnsupportedRootTypesTool.unsupportedTypes.
  set (all := CheckUnsupportedRootTypesTool.allRootTypes schema).
  assert (Hall : forall t, In t all -> Suspect schema t).
  { intros t Ht. apply filter_In in Ht as [_ Ht]. now apply suspect_filter. }
  assert (Hout :
    fold_left
      (fun acc t =>
         if negb (bool_decide (type_name t ∈ CheckUnsupportedRootTypesTool.supportedTypes schema))
            && TypeKind_eqb (type_kind t) OBJECT
         then (acc ++ [CheckUnsupportedRootTypesTool.mkUnsupported (type_name t)
                         (CheckUnsupportedRootTypesTool.fieldCountOf t)])%list
         else acc) all []
    = map (fun t => CheckUnsupportedRootTypesTool.mkUnsupported (type_name t)
                      (CheckUnsupportedRootTypesTool.fieldCountOf t)) all).
  { rewrite (forEach_push
               (fun t => negb (bool_decide (type_name t
                                  ∈ CheckUnsupportedRootTypesTool.supportedTypes schema))
                         && TypeKind_eqb (type_kind t) OBJECT)).
    simpl. f_equal. apply filter_all. intros t Ht.
    destruct (Hall t Ht) as (Hk & _ & Hr & _).
    apply andb_true_iff. split; [| now apply TypeKind_eqb_eq].
    apply negb_true_iff, bool_decide_eq_false. intros Hin. apply Hr.
    now apply supportedTypes_spec. }
  destruct (0 <? length all)%nat eqn:Hlen.
  - rewrite Hout. apply Selected_filter. intros t. apply suspect_filter.
  - apply Nat.ltb_ge in Hlen. destruct all as [|x all'] eqn:Hnil; [| simpl in Hlen; lia].
    change [] with (map (fun t => CheckUnsupportedRootTypesTool.mkUnsupported (type_name t)
                                    (CheckUnsupportedRootTypesTool.fieldCountOf t))
                        (@nil IntrospectionType)).
    rewrite <- Hnil. apply Selected_filter. intros t. apply suspect_filter.
Qed.

Lemma list_unsupported_selected (fieldType : option ListRootFieldsTool.FieldType)
    (schema : IntrospectionSchema) :
  Selected (Suspect schema) type_name (types schema)
    (ListRootFieldsTool.unsupportedTypes fieldType schema).
Proof.
  unfold ListRootFieldsTool.unsupportedTypes.
  set (all := ListRootFieldsTool.allRootTypes schema).
  assert (Hall : forall t, In t all -> Suspect schema t).
  { intros t Ht. apply filter_In in Ht as [_ Ht]. now apply suspect_filter. }
  assert (Hout :
    fold_left
      (fun acc t =>
         if negb (bool_decide (type_name t ∈ ListRootFieldsTool.supportedTypes fieldType schema))
         then (acc ++ [type_name t])%list
         else acc) all []
    = map type_name all).
  { rewrite (forEach_push
               (fun t => negb (bool_decide (type_name t
                                  ∈ ListRootFieldsTool.supportedTypes fieldType schema)))).
    simpl. f_equal. apply filter_all. intros t Ht.
    destruct (Hall t Ht) as (_ & _ & Hr & _).
    apply negb_true_iff, bool_decide_eq_false. intros Hin. apply Hr.
    now apply (listRootFields_supported_canonical fieldType). }
  destruct (0 <? length all)%nat eqn:Hlen.
  - rewrite Hout. apply Selected_filter. intros t. apply suspect_filter.
  - apply Nat.ltb_ge in Hlen. destruct all as [|x all'] eqn:Hnil; [| simpl in Hlen; lia].
    change [] with (map type_name (@nil IntrospectionType)).
    rewrite <- Hnil. apply Selected_filter. intros t. apply suspect_filter.
Qed.

(** C8. Both tools report, in schema order, exactly the OBJECT types whose
    name ends in _root, is not bound as query, mutation or subscription root
    and does not start with two underscores, the check tool together with
    the number of fields; with query_root as query root, an extra type
    weird_root is the one suspect, and without it there is none. *)
Theorem C8_root_type_suspects (schema : IntrospectionSchema) :
  Selected (Suspect schema)
    (fun t => CheckUnsupportedRootTypesTool.mkUnsupported (type_name t)
                (CheckUnsupportedRootTypesTool.fieldCountOf t))
    (types schema) (CheckUnsupportedRootTypesTool.unsupportedTypes schema)
  /\ (forall fieldType,
        Selected (Suspect schema) type_name (types schema)
          (ListRootFieldsTool.unsupportedTypes fieldType schema))
  /\ (forall u,
        In u (CheckUnsupportedRootTypesTool.unsupportedTypes schema) <->
        exists t, In t (types schema) /\ Suspect schema t
                  /\ u = CheckUnsupportedRootTypesTool.mkUnsupported (type_name t)
                           (CheckUnsupportedRootTypesTool.fieldCountOf t))
  /\ CheckUnsupportedRootTypesTool.unsupportedTypes weirdSchema
     = [CheckUnsupportedRootTypesTool.mkUnsupported "weird_root" 3]
  /\ ListRootFieldsTool.unsupportedTypes None weirdSchema = ["weird_root"]
  /\ CheckUnsupportedRootTypesTool.unsupportedTypes plainSchema = []
  /\ ListRootFieldsTool.unsupportedTypes None plainSchema = [].
Proof.
  split; [apply check_unsupported_selected |].
  split; [intros ft; apply list_unsupported_selected |].
  split; [apply Selected_In, check_unsupported_selected |].
  repeat split; vm_compute; reflexivity.
Qed.

(** ** Post-hoc trimming *)

Lemma trimResult_array (items : list JSON) (path : string)
    (st : RunGraphQLQueryTool.TrimState) :
  RunGraphQLQueryTool.trimResult (JArray items) path st
  = if (100 <? length items)%nat then
      (JArray (take 100 items),
       {| RunGraphQLQueryTool.trimmed := true;
          RunGraphQLQueryTool.trimmedFields :=
            (RunGraphQLQueryTool.trimmedFields st
             ++ [RunGraphQLQueryTool.trimNote path (length items)])%list |})
    else
      let '(items', st') := walkItems path items 0 st in (JArray items', st').
Proof. reflexivity. Qed.

Lemma trimResult_object (members : list (string * JSON)) (path : string)
    (st : RunGraphQLQueryTool.TrimState) :
  RunGraphQLQueryTool.trimResult (JObject members) path st
  = let '(members', st') := walkMembers path members st in (JObject members', st').
Proof. reflexivity. Qed.

(** Induction over JSON values, with the hypothesis for every element of an
    array and every value of an object. *)
Lemma JSON_nested_ind (P : JSON -> Prop) :
  P JNull -> (forall b, P (JBool b)) -> (forall n, P (JNumber n)) ->
  (forall s, P (JString s)) ->
  (forall items, Forall P items -> P (JArray items)) ->
  (forall members, Forall (fun kv => P (snd kv)) members -> P (JObject members)) ->
  forall v, P v.
Proof.
  intros Hnull Hbool Hnum Hstr Harr Hobj. fix IH 1. intros [|b|n|s|items|members].
  - exact Hnull.
  - apply Hbool.
  - apply Hnum.
  - apply Hstr.
  - apply Harr. induction items as [|x items IHl]; constructor; [apply IH | exact IHl].
  - apply Hobj. induction members as [|[k x] members IHl]; constructor;
      [apply IH | exact IHl].
Qed.

Lemma walkItems_cons (path : string) (item : JSON) (r : list JSON) (idx : nat)
    (st : RunGraphQLQueryTool.TrimState) :
  walkItems path (item :: r) idx st
  = let '(item', st1) :=
      RunGraphQLQueryTool.trimResult item (path ++ "[" ++ showNat idx ++ "]") st in
    let '(r', st2) := walkItems path r (S idx) st1 in
    (item' :: r', st2).
Proof. reflexivity. Qed.

Lemma walkMembers_cons (path key : string) (v : JSON) (r : list (string * JSON))
    (st : RunGraphQLQueryTool.TrimState) :
  walkMembers path ((key, v) :: r) st
  = let '(v', st1) :=
      RunGraphQLQueryTool.trimResult v
        (if String.eqb path "root" then key else path ++ "." ++ key) st in
    let '(r', st2) := walkMembers path r st1 in
    ((key, v') :: r', st2).
Proof. reflexivity. Qed.

(** A response without an array of more than 100 elements is returned as it
    is, and nothing is noted. *)
Lemma trimResult_within_ceiling (v : JSON) :
  ~ Oversized v ->
  forall path st, RunGraphQLQueryTool.trimResult v path st = (v, st).
Proof.
  induction v as [| b | n | s | items IH | members IH] using JSON_nested_ind;
    intros Hv path st; try reflexivity.
  - rewrite trimResult_array.
    destruct (100 <? length items)%nat eqn:Hlen.
    { exfalso. apply Hv. constructor. now apply Nat.ltb_lt. }
    assert (Hw : forall idx st0, walkItems path items idx st0 = (items, st0)).
    { assert (Hitems : forall x, In x items -> ~ Oversized x).
      { intros x Hx Ho. apply Hv. now apply oversized_item with x. }
      clear Hv Hlen. induction IH as [|x items Hx _ IHl]; intros idx st0;
        [reflexivity |].
      rewrite walkItems_cons, Hx by (apply Hitems; now left).
      rewrite IHl; [reflexivity |]. intros y Hy. apply Hitems. now right. }
    now rewrite Hw.
  - rewrite trimResult_object.
    assert (Hw : forall st0, walkMembers path members st0 = (members, st0)).
    { assert (Hmem : forall k x, In (k, x) members -> ~ Oversized x).
      { intros k x Hx Ho. apply Hv. now apply oversized_member with k x. }
      clear Hv. induction IH as [|[k x] members Hx _ IHl]; intros st0;
        [reflexivity |].
      rewrite walkMembers_cons. simpl in Hx.
      rewrite Hx by (apply (Hmem k); now left).
      rewrite IHl; [reflexivity |]. intros k' y Hy. apply (Hmem k'). now right. }
    now rewrite Hw.
Qed.

(** Once set, the flag [trimmed] stays set. *)
Lemma trimResult_trimmed_mono (v : JSON) :
  forall path st,
    RunGraphQLQueryTool.trimmed st = true ->
    RunGraphQLQueryTool.trimmed (snd (RunGraphQLQueryTool.trimResult v path st)) = true.
Proof.
  induction v as [| b | n | s | items IH | members IH] using JSON_nested_ind;
    intros path st Hst; try assumption.
  - rewrite trimResult_array. destruct (100 <? length items)%nat; [reflexivity |].
    assert (Hw : forall idx st0, RunGraphQLQueryTool.trimmed st0 = true ->
                 RunGraphQLQueryTool.trimmed (snd (walkItems path items idx st0)) = true).
    { clear Hst. induction IH as [|x items Hx _ IHl]; intros idx st0 H0; [assumption |].
      rewrite walkItems_cons. specialize (Hx (path ++ "[" ++ showNat idx ++ "]") st0 H0).
      destruct (RunGraphQLQueryTool.trimResult x _ st0) as [x' st1].
      specialize (IHl (S idx) st1 Hx).
      destruct (walkItems path items (S idx) st1) as [r' st2]. exact IHl. }
    specialize (Hw 0 st Hst). destruct (walkItems path items 0 st). exact Hw.
  - rewrite trimResult_object.
    assert (Hw : forall st0, RunGraphQLQueryTool.trimmed st0 = true ->
                 RunGraphQLQueryTool.trimmed (snd (walkMembers path members st0)) = true).
    { clear Hst. induction IH as [|[k x] members Hx _ IHl]; intros st0 H0; [assumption |].
      rewrite walkMembers_cons. simpl in Hx.
      specialize (Hx (if String.eqb path "root" then k else path ++ "." ++ k) st0 H0).
      destruct (RunGraphQLQueryTool.trimResult x _ st0) as [x' st1].
      specialize (IHl st1 Hx).
      destruct (walkMembers path members st1) as [r' st2]. exact IHl. }
    specialize (Hw st Hst). destruct (walkMembers path members st). exact Hw.
Qed.

(** A response that holds an array of more than 100 elements sets the flag:
    some array is cut. *)
Lemma trimResult_oversized_trims (v : JSON) :
  Oversized v ->
  forall path st,
    RunGraphQLQueryTool.trimmed (snd (RunGraphQLQueryTool.trimResult v path st)) = true.
Proof.
  induction 1 as [items Hlen | items v Hin Hv IH | members key v Hin Hv IH];
    intros path st.
  - rewrite trimResult_array. apply Nat.ltb_lt in Hlen. now rewrite Hlen.
  - rewrite trimResult_array. destruct (100 <? length items)%nat; [reflexivity |].
    assert (Hw : forall idx st0,
                 RunGraphQLQueryTool.trimmed (snd (walkItems path items idx st0)) = true).
    { induction items as [|x items IHl]; [contradiction |]. intros idx st0.
      rewrite walkItems_cons. destruct Hin as [-> | Hin].
      - specialize (IH (path ++ "[" ++ showNat idx ++ "]") st0).
        destruct (RunGraphQLQueryTool.trimResult v _ st0) as [x' st1]. simpl in IH.
        clear IHl.
        assert (Hm : forall l i s, RunGraphQLQueryTool.trimmed s = true ->
                     RunGraphQLQueryTool.trimmed (snd (walkItems path l i s)) = true).
        { induction l as [|y l IHm]; intros i s Hs; [assumption |].
          rewrite walkItems_cons.
          pose proof (trimResult_trimmed_mono y (path ++ "[" ++ showNat i ++ "]") s Hs) as Hy.
          destruct (RunGraphQLQueryTool.trimResult y _ s) as [y' s1].
          specialize (IHm (S i) s1 Hy).
          destruct (walkItems path l (S i) s1). exact IHm. }
        specialize (Hm items (S idx) st1 IH).
        destruct (walkItems path items (S idx) st1). exact Hm.
      - destruct (RunGraphQLQueryTool.trimResult x _ st0) as [x' st1].
        specialize (IHl Hin (S idx) st1).
        destruct (walkItems path items (S idx) st1). exact IHl. }
    specialize (Hw 0 st). destruct (walkItems path items 0 st). exact Hw.
  - rewrite trimResult_object.
    assert (Hw : forall st0,
                 RunGraphQLQueryTool.trimmed (snd (walkMembers path members st0)) = true).
    { induction members as [|[k x] members IHl]; [contradiction |]. intros st0.
      rewrite walkMembers_cons. destruct Hin as [Heq | Hin].
      - injection Heq as -> ->.
        specialize (IH (if String.eqb path "root" then key else path ++ "." ++ key) st0).
        destruct (RunGraphQLQueryTool.trimResult v _ st0) as [x' st1]. simpl in IH.
        clear IHl.
        assert (Hm : forall l s, RunGraphQLQueryTool.trimmed s = true ->
                     RunGraphQLQueryTool.trimmed (snd (walkMembers path l s)) = true).
        { induction l as [|[k' y] l IHm]; intros s Hs; [assumption |].
          rewrite walkMembers_cons.
          pose proof (trimResult_trimmed_mono y
                        (if String.eqb path "root" then k' else path ++ "." ++ k') s Hs) as Hy.
          destruct (RunGraphQLQueryTool.trimResult y _ s) as [y' s1].
          specialize (IHm s1 Hy).
          destruct (walkMembers path l s1). exact IHm. }
        specialize (Hm members st1 IH).
        destruct (walkMembers path members st1). exact Hm.
      - destruct (RunGraphQLQueryTool.trimResult x _ st0) as [x' st1].
        specialize (IHl Hin st1).
        destruct (walkMembers path members st1). exact IHl. }
    specialize (Hw st). destruct (walkMembers path members st). exact Hw.
Qed.





Lemma lookupKey_setKey (key : string) (v : JSON) (members : list (string * JSON)) :
  lookupKey key (setKey key v members) = Some v.
Proof.
  induction members as [|[k w] members IH]; simpl.
  - now rewrite String.eqb_refl.
  - destruct (String.eqb k key) eqn:Hk; simpl; now rewrite Hk.
Qed.




(** The example of the specification: 150 rows at a.b, 50 rows at a.c. *)
Lemma shape_spec_example :
  RunGraphQLQueryTool.shape false
    (JObject [("a", JObject [("b", rowsOf 150); ("c", rowsOf 50)])])
  = JObject [("a", JObject [("b", rowsOf 100); ("c", rowsOf 50)]);
             ("_warning",
              JString (RunGraphQLQueryTool.warningText ["a.b (150 rows trimmed to 100)"]))].
Proof. vm_compute. reflexivity. Qed.

(** C10. An array of more than 100 elements is cut to its first 100
    elements, which are returned as they are, and only its own path is noted:
    an array of more than 100 elements inside a retained element is still
    there afterwards. The elements of an array of at most 100 elements and
    the values of an object are each passed to [trimResult]; other values are
    returned. *)
Theorem C10_truncated_elements_not_walked (items : list JSON) (path : string)
    (st : RunGraphQLQueryTool.TrimState) :
  (100 < length items ->
     RunGraphQLQueryTool.trimResult (JArray items) path st
     = (JArray (take 100 items),
        {| RunGraphQLQueryTool.trimmed := true;
           RunGraphQLQueryTool.trimmedFields :=
             (RunGraphQLQueryTool.trimmedFields st
              ++ [RunGraphQLQueryTool.trimNote path (length items)])%list |})
     /\ forall v, In v (take 100 items) -> Oversized v ->
          Oversized (fst (RunGraphQLQueryTool.trimResult (JArray items) path st)))
  /\ (length items <= 100 ->
      RunGraphQLQueryTool.trimResult (JArray items) path st
      = let '(items', st') := walkItems path items 0 st in (JArray items', st'))
  /\ (forall members,
        RunGraphQLQueryTool.trimResult (JObject members) path st
        = let '(members', st') := walkMembers path members st in (JObject members', st'))
  /\ (forall v, isLeaf v -> RunGraphQLQueryTool.trimResult v path st = (v, st)).
Proof.
  split; [| split; [| split]].
  - intros H. rewrite trimResult_array.
    apply Nat.ltb_lt in H. rewrite H. split; [reflexivity |].
    intros v Hin Hv. simpl. now apply oversized_item with v.
  - intros H. rewrite trimResult_array.
    apply Nat.ltb_ge in H. now rewrite H.
  - intros members. apply trimResult_object.
  - intros [] H; simpl in H; try contradiction; reflexivity.
Qed.

(** C10 on 101 rows with 101 tags each, and on two such rows. *)
Lemma C10_truncated_elements_not_walked_witness :
  100 < length (repeat taggedRow 101)
  /\ RunGraphQLQueryTool.trimResult (JArray (repeat taggedRow 101)) "rows" noTrim
     = (JArray (repeat taggedRow 100),
        RunGraphQLQueryTool.mkTrimState true ["rows (101 rows trimmed to 100)"])
  /\ RunGraphQLQueryTool.trimResult (JArray (repeat taggedRow 2)) "rows" noTrim
     = (JArray (repeat (JObject [("tags", rowsOf 100)]) 2),
        RunGraphQLQueryTool.mkTrimState true
          ["rows[0].tags (101 rows trimmed to 100)";
           "rows[1].tags (101 rows trimmed to 100)"]).
Proof.
  assert (H : 100 < length (repeat taggedRow 101)) by (rewrite repeat_length; lia).
  split; [exact H |]. split.
  - destruct (C10_truncated_elements_not_walked (repeat taggedRow 101) "rows" noTrim)
      as [Hcut _].
    destruct (Hcut H) as [-> _]. reflexivity.
  - destruct (C10_truncated_elements_not_walked (repeat taggedRow 2) "rows" noTrim)
      as (_ & Hwalk & _).
    rewrite Hwalk by (simpl; lia). vm_compute. reflexivity.
Defined.

(** C1 at the failing input: the response has 101 rows, each with 101 tags.
    The rows are cut to 100, but every retained row keeps its 101 tags: the
    payload still holds an array of more than 100 elements, and the warning
    names the rows only. *)
Theorem C1_nested_array_left_oversized :
  let payload :=
    RunGraphQLQueryTool.shape false (JObject [("rows", JArray (repeat taggedRow 101))]) in
  payload
  = JObject [("rows", JArray (repeat (JObject [("tags", rowsOf 101)]) 100));
             ("_warning",
              JString (RunGraphQLQueryTool.warningText ["rows (101 rows trimmed to 100)"]))]
  /\ Oversized payload.
Proof.
  cbv zeta.
  assert (Heq : RunGraphQLQueryTool.shape false
                  (JObject [("rows", JArray (repeat taggedRow 101))])
                = JObject [("rows", JArray (repeat (JObject [("tags", rowsOf 101)]) 100));
                           ("_warning",
                            JString (RunGraphQLQueryTool.warningText
                                       ["rows (101 rows trimmed to 100)"]))])
    by (vm_compute; reflexivity).
  split; [exact Heq |]. rewrite Heq.
  apply oversized_member with "rows" (JArray (repeat (JObject [("tags", rowsOf 101)]) 100));
    [now left |].
  apply oversized_item with (JObject [("tags", rowsOf 101)]); [now left |].
  apply oversized_member with "tags" (rowsOf 101); [now left |].
  apply oversized_here. unfold rowsOf. rewrite length_map, length_seq. lia.
Qed.


(** * Further properties *)

(** ** The post-hoc governor *)

Lemma lookupKey_setKey_other (key k : string) (v : JSON) (members : list (string * JSON)) :
  k <> key -> lookupKey k (setKey key v members) = lookupKey k members.
Proof.
  intros Hne. induction members as [|[k' w] members IH]; simpl.
  - destruct (String.eqb key k) eqn:H; [apply String.eqb_eq in H; congruence | reflexivity].
  - destruct (String.eqb k' key) eqn:Hk; simpl.
    + apply String.eqb_eq in Hk. subst k'.
      destruct (String.eqb key k) eqn:H; [apply String.eqb_eq in H; congruence | reflexivity].
    + destruct (String.eqb k' k); [reflexivity | exact IH].
Qed.

Lemma walkItems_length (path : string) (l : list JSON) (idx : nat)
    (st : RunGraphQLQueryTool.TrimState) :
  length (fst (walkItems path l idx st)) = length l.
Proof.
  revert idx st. induction l as [|x l IH]; intros idx st; [reflexivity |].
  rewrite walkItems_cons.
  destruct (RunGraphQLQueryTool.trimResult x _ st) as [x' st1].
  specialize (IH (S idx) st1). destruct (walkItems path l (S idx) st1) as [r' st2].
  simpl in *. now rewrite IH.
Qed.

(** An array that [trimResult] returns has at most 100 elements. *)
Lemma trimResult_array_bounded (v : JSON) (path : string)
    (st : RunGraphQLQueryTool.TrimState) (out : list JSON) :
  fst (RunGraphQLQueryTool.trimResult v path st) = JArray out -> length out <= 100.
Proof.
  destruct v as [| b | n | s | items | members]; try discriminate.
  - rewrite trimResult_array. destruct (100 <? length items)%nat eqn:Hlen.
    + simpl. intros [= <-]. rewrite length_take. lia.
    + pose proof (walkItems_length path items 0 st) as Hw.
      destruct (walkItems path items 0 st) as [items' st']. simpl in *.
      intros [= <-]. apply Nat.ltb_ge in Hlen. lia.
  - rewrite trimResult_object.
    destruct (walkMembers path members st). discriminate.
Qed.

Lemma walkMembers_lookup (path : string) (l : list (string * JSON))
    (st : RunGraphQLQueryTool.TrimState) (key : string) (v' : JSON) :
  lookupKey key (fst (walkMembers path l st)) = Some v' ->
  exists v p st0, v' = fst (RunGraphQLQueryTool.trimResult v p st0).
Proof.
  revert st. induction l as [|[k v] l IH]; intros st; [discriminate |].
  rewrite walkMembers_cons.
  destruct (RunGraphQLQueryTool.trimResult v _ st) as [x st1] eqn:Hx.
  specialize (IH st1). destruct (walkMembers path l st1) as [r' st2].
  simpl in *. destruct (String.eqb k key).
  - intros [= <-]. eexists v, _, st. now rewrite Hx.
  - exact IH.
Qed.

Lemma shape_arrays_bounded_cases (result : JSON) :
  match RunGraphQLQueryTool.shape false result with
  | JArray out => length out <= 100
  | JObject members' =>
      forall members, result = JObject members ->
      forall key out, lookupKey key members' = Some (JArray out) -> length out <= 100
  | _ => True
  end.
Proof.
  unfold RunGraphQLQueryTool.shape. simpl negb. cbv iota. fold noTrim.
  destruct (RunGraphQLQueryTool.trimResult result "root" noTrim) as [trimmedResult st] eqn:Ht.
  assert (Hfst : fst (RunGraphQLQueryTool.trimResult result "root" noTrim) = trimmedResult)
    by now rewrite Ht.
  assert (Hobj : forall members, result = JObject members ->
            forall key out, lookupKey key (spread trimmedResult) = Some (JArray out) ->
            length out <= 100).
  { intros members -> key out Hk. rewrite trimResult_object in Hfst.
    pose proof (walkMembers_lookup "root" members noTrim key (JArray out)) as Hl.
    destruct (walkMembers "root" members noTrim) as [members' st']. simpl in Hfst.
    subst trimmedResult. simpl in Hk. destruct (Hl Hk) as (v & p & st0 & Hv).
    symmetry in Hv. now apply trimResult_array_bounded in Hv. }
  destruct (RunGraphQLQueryTool.trimmed st).
  - intros members Hm key out Hk.
    destruct (String.eqb key "_warning") eqn:Hkey.
    + apply String.eqb_eq in Hkey. subst key. rewrite lookupKey_setKey in Hk. discriminate.
    + apply String.eqb_neq in Hkey. rewrite lookupKey_setKey_other in Hk by assumption.
      now apply (Hobj members Hm key).
  - destruct trimmedResult as [| b | n | s | out | members']; try exact I.
    + now apply (trimResult_array_bounded result "root" noTrim).
    + intros members Hm key out Hk. now apply (Hobj members Hm key).
Qed.

(** Without the override, every array found under a top-level key of the
    payload of an object response has at most 100 elements, and so has a
    payload that is itself an array. *)
Theorem shape_top_level_arrays_bounded (result : JSON) :
  (forall members key out,
     result = JObject members ->
     getProp (RunGraphQLQueryTool.shape false result) key = Some (JArray out) ->
     length out <= 100)
  /\ (forall out, RunGraphQLQueryTool.shape false result = JArray out -> length out <= 100).
Proof.
  pose proof (shape_arrays_bounded_cases result) as H. split.
  - intros members key out Hr Hk.
    destruct (RunGraphQLQueryTool.shape false result) as [| | | | |members'];
      try discriminate. now apply (H members Hr key).
  - intros out Ho. now rewrite Ho in H.
Qed.

(** An object with 150 rows under the key users. *)
Lemma shape_top_level_arrays_bounded_witness :
  exists out,
    getProp (RunGraphQLQueryTool.shape false (JObject [("users", rowsOf 150)])) "users"
    = Some (JArray out)
    /\ length out <= 100.
Proof.
  exists (map (fun i => JNumber (Z.of_nat i)) (seq 0 100)).
  assert (H : getProp (RunGraphQLQueryTool.shape false (JObject [("users", rowsOf 150)]))
                "users"
              = Some (JArray (map (fun i => JNumber (Z.of_nat i)) (seq 0 100))))
    by (vm_compute; reflexivity).
  split; [exact H |].
  exact (proj1 (shape_top_level_arrays_bounded (JObject [("users", rowsOf 150)]))
           _ "users" _ eq_refl H).
Defined.

(** A pass of [trimResult] pushes entries onto [trimmedFields] and sets
    [trimmed] exactly when it pushed one; each entry names a length above 100. *)
Lemma trimResult_notes (v : JSON) :
  forall path st,
    exists notes,
      snd (RunGraphQLQueryTool.trimResult v path st) = noted st notes
      /\ Forall IsNote notes.
Proof.
  assert (Hnil : forall st, st = noted st []).
  { intros [t f]. unfold noted. simpl. now rewrite orb_false_r, app_nil_r. }
  assert (Hcomp : forall st a b, noted (noted st a) b = noted st (a ++ b)).
  { intros [t f] a b. unfold noted. simpl. f_equal; [| now rewrite app_assoc].
    rewrite <- orb_assoc. f_equal.
    destruct a, b; simpl; try reflexivity. }
  induction v as [| b | n | s | items IH | members IH] using JSON_nested_ind;
    intros path st; try (exists []; split; [apply Hnil | constructor]).
  - rewrite trimResult_array. destruct (100 <? length items)%nat eqn:Hlen.
    + exists [RunGraphQLQueryTool.trimNote path (length items)]. split.
      * unfold noted. simpl. now rewrite orb_true_r.
      * constructor; [| constructor]. exists path, (length items).
        split; [now apply Nat.ltb_lt | reflexivity].
    + assert (Hw : forall idx st0, exists notes,
                 snd (walkItems path items idx st0) = noted st0 notes
                 /\ Forall IsNote notes).
      { clear Hlen. induction IH as [|x items Hx _ IHl]; intros idx st0.
        - exists []. split; [apply Hnil | constructor].
        - rewrite walkItems_cons.
          destruct (Hx (path ++ "[" ++ showNat idx ++ "]") st0) as (n1 & H1 & F1).
          destruct (RunGraphQLQueryTool.trimResult x _ st0) as [x' st1]. simpl in H1.
          destruct (IHl (S idx) st1) as (n2 & H2 & F2).
          destruct (walkItems path items (S idx) st1) as [r' st2]. simpl in *.
          exists (n1 ++ n2)%list. split; [| now apply Forall_app].
          now rewrite H2, H1, Hcomp. }
      destruct (Hw 0 st) as (notes & Hn & Fn).
      destruct (walkItems path items 0 st). simpl in *. now exists notes.
  - rewrite trimResult_object.
    assert (Hw : forall st0, exists notes,
               snd (walkMembers path members st0) = noted st0 notes
               /\ Forall IsNote notes).
    { induction IH as [|[k x] members Hx _ IHl]; intros st0.
      - exists []. split; [apply Hnil | constructor].
      - rewrite walkMembers_cons. simpl in Hx.
        destruct (Hx (if String.eqb path "root" then k else path ++ "." ++ k) st0)
          as (n1 & H1 & F1).
        destruct (RunGraphQLQueryTool.trimResult x _ st0) as [x' st1]. simpl in H1.
        destruct (IHl st1) as (n2 & H2 & F2).
        destruct (walkMembers path members st1) as [r' st2]. simpl in *.
        exists (n1 ++ n2)%list. split; [| now apply Forall_app].
        now rewrite H2, H1, Hcomp. }
    destruct (Hw st) as (notes & Hn & Fn).
    destruct (walkMembers path members st). simpl in *. now exists notes.
Qed.

(** The warning is added exactly when at least one path was recorded; every
    recorded entry reports an original length above 100; and a path is
    recorded exactly for the responses that hold an array of more than 100
    elements. *)
Theorem warning_lists_real_truncations (result : JSON) :
  let st := snd (RunGraphQLQueryTool.trimResult result "root" noTrim) in
  Forall IsNote (RunGraphQLQueryTool.trimmedFields st)
  /\ (RunGraphQLQueryTool.trimmed st = true
      <-> RunGraphQLQueryTool.trimmedFields st <> [])
  /\ (Oversized result -> RunGraphQLQueryTool.trimmedFields st <> [])
  /\ (~ Oversized result -> RunGraphQLQueryTool.trimmedFields st = []).
Proof.
  cbv zeta. destruct (trimResult_notes result "root" noTrim) as (notes & Hn & Fn).
  assert (Hflag : RunGraphQLQueryTool.trimmed
                    (snd (RunGraphQLQueryTool.trimResult result "root" noTrim)) = true
                  <-> RunGraphQLQueryTool.trimmedFields
                        (snd (RunGraphQLQueryTool.trimResult result "root" noTrim)) <> []).
  { rewrite Hn. unfold noted. simpl. rewrite negb_true_iff, bool_decide_eq_false.
    reflexivity. }
  split; [now rewrite Hn |]. split; [exact Hflag |]. split.
  - intros Ho. apply Hflag. now apply trimResult_oversized_trims.
  - intros Ho. now rewrite (trimResult_within_ceiling result Ho).
Qed.

(** ** The request function of index.ts *)

Lemma makeGqlRequest_run {T} (backend : Backend T) (q : string) (v : option JSON)
    (w : World) :
  Index.makeGqlRequest backend q v w
  = (normalised (backend (length (calls w)) (mkRequest q v)),
     afterRequest w (mkRequest q v)).
Proof.
  unfold Index.makeGqlRequest, Index.gqlClient_request, tryCatch, throw, normalised,
    afterRequest.
  destruct (backend _ _) as [d|[m|m|errs m]]; reflexivity.
Qed.

Lemma join_empty_iff (sep : string) (l : list string) :
  sep <> "" -> join sep l = "" <-> l = [] \/ l = [""].
Proof.
  intros Hsep. destruct l as [|x [|y l]]; simpl.
  - split; auto.
  - split; [intros ->; now right | intros [H | [= ->]]; [discriminate | reflexivity]].
  - split; [| intros [H | H]; discriminate].
    intros H. destruct x; [| discriminate]. rewrite append_nil in H.
    destruct sep; [contradiction | discriminate].
Qed.

(** Every call of [makeGqlRequest] sends one request. It never throws a
    ClientError: such an error is replaced by an Error whose message joins
    the reported messages with commas, or names an unknown error when there
    is no message; any other error is thrown on as it is. *)
Theorem makeGqlRequest_normalises_errors {T} (backend : Backend T) (q : string)
    (v : option JSON) (w : World) :
  let run := Index.makeGqlRequest backend q v w in
  snd run = afterRequest w (mkRequest q v)
  /\ (forall e, fst run = Thrown e -> isClientError e = false)
  /\ (forall errors m,
        backend (length (calls w)) (mkRequest q v) = Rejected (ClientError errors m) ->
        exists reasons,
          fst run = Thrown (Error ("GraphQL operation failed: " ++ reasons))
          /\ reasons <> ""
          /\ (reasons = "Unknown GraphQL error"
              \/ exists l, errors = Some l /\ reasons = join ", " l)
          /\ (forall l, errors = Some l -> l <> [] -> l <> [""] ->
                reasons = join ", " l))
  /\ (forall e,
        backend (length (calls w)) (mkRequest q v) = Rejected e ->
        isClientError e = false -> fst run = Thrown e)
  /\ (forall data,
        backend (length (calls w)) (mkRequest q v) = Resolved data ->
        fst run = Returned data).
Proof.
  cbv zeta. rewrite makeGqlRequest_run. simpl.
  split; [reflexivity |]. split; [| split; [| split]].
  - intros e. destruct (backend _ _) as [d|[m|m|errs m]]; simpl;
      intros [= <-]; reflexivity.
  - intros errors m ->. simpl. exists (Index.gqlErrors errors).
    split; [reflexivity |]. unfold Index.gqlErrors.
    destruct errors as [l|]; simpl.
    + destruct (String.eqb (join ", " l) "") eqn:Hj.
      * split; [discriminate |]. split; [now left |].
        intros l' [= <-] Hnil Hone. apply String.eqb_eq in Hj.
        apply join_empty_iff in Hj; [| discriminate]. tauto.
      * apply String.eqb_neq in Hj. split; [assumption |].
        split; [right; now exists l | now intros l' [= <-]].
    + split; [discriminate |]. split; [now left | discriminate].
  - intros e -> He. destruct e; [reflexivity | reflexivity | discriminate].
  - intros data ->. reflexivity.
Qed.

(** A rejection with two messages. *)
Lemma makeGqlRequest_normalises_errors_witness :
  fst (Index.makeGqlRequest deniedBackend usersQuery None emptyWorld)
  = Thrown (Error "GraphQL operation failed: field not found, permission denied").
Proof.
  destruct (makeGqlRequest_normalises_errors deniedBackend usersQuery None emptyWorld)
    as (_ & _ & Hc & _).
  destruct (Hc _ _ eq_refl) as (reasons & Hrun & _ & [-> | (l & Hl & ->)] & _).
  - exfalso. vm_compute in Hrun. discriminate Hrun.
  - injection Hl as <-. exact Hrun.
Defined.

(** ** Errors of the aggregate tool *)

Lemma validAggregate_selection (input : AggregateDataTool.Input) :
  validAggregate input ->
  negb (AggregateDataTool.isCount (AggregateDataTool.aggregateFunction input))
  && negb (AggregateDataTool.hasField (AggregateDataTool.field input)) = false
  /\ AggregateDataTool.aggregateSelection (AggregateDataTool.aggregateFunction input)
       (AggregateDataTool.field input) = Returned (selectionOf input).
Proof.
  unfold validAggregate, selectionOf, AggregateDataTool.aggregateSelection.
  destruct input as [t f fld flt]; simpl.
  intros [-> | (name & -> & Hname)]; simpl; [now split |].
  apply String.eqb_neq in Hname. rewrite Hname. simpl.
  rewrite andb_false_r. now destruct f.
Qed.

(** For a valid aggregate request the tool sends one request and throws
    what [makeGqlRequest] throws, unchanged: as [makeGqlRequest] never throws
    a ClientError, the rewording of ClientErrors in the tool's catch block
    never applies. On success the payload is the aggregate object of the
    response when there is one, and the whole response otherwise. *)
Theorem aggregate_errors_pass_through (backend : Backend JSON) (w : World)
    (input : AggregateDataTool.Input) :
  validAggregate input ->
  let request :=
    mkRequest (AggregateDataTool.aggregateQuery input (selectionOf input))
              (Some (AggregateDataTool.aggregateVariables input)) in
  AggregateDataTool.execute backend input w
  = (match normalised (backend (length (calls w)) request) with
     | Returned raw =>
         Returned (mkToolResult
                     (AggregateDataTool.finalResult
                        (AggregateDataTool.tableName input ++ "_aggregate") raw))
     | Thrown e => Thrown e
     end,
     afterRequest w request).
Proof.
  intros Hv. cbv zeta. destruct (validAggregate_selection input Hv) as [Hguard Hsel].
  unfold AggregateDataTool.execute. rewrite Hguard, Hsel.
  unfold bind at 1, liftO. unfold tryCatch, bind. rewrite makeGqlRequest_run.
  destruct (backend _ _) as [d|[m|m|errs m]]; reflexivity.
Qed.

(** A sum whose request is rejected with a ClientError. *)
Lemma aggregate_errors_pass_through_witness :
  validAggregate sumOfPrice
  /\ fst (AggregateDataTool.execute deniedBackend sumOfPrice emptyWorld)
     = Thrown (Error "GraphQL operation failed: field not found, permission denied").
Proof.
  assert (H : validAggregate sumOfPrice)
    by (right; exists "price"; split; [reflexivity | discriminate]).
  split; [exact H |].
  rewrite (aggregate_errors_pass_through deniedBackend emptyWorld sumOfPrice H).
  reflexivity.
Defined.

(** ** Variables of the limit variant *)

Lemma lookupKey_setKey_cases (key k : string) (v : JSON) (members : list (string * JSON)) :
  lookupKey k (setKey key v members)
  = if String.eqb key k then Some v else lookupKey k members.
Proof.
  destruct (String.eqb key k) eqn:H.
  - apply String.eqb_eq in H. subst. apply lookupKey_setKey.
  - apply String.eqb_neq in H. apply lookupKey_setKey_other. congruence.
Qed.

Lemma setKey_keys_NoDup (key : string) (v : JSON) (members : list (string * JSON)) :
  List.NoDup (keys members) -> List.NoDup (keys (setKey key v members)).
Proof.
  assert (Hin : forall k m, In k (keys (setKey key v m)) -> k = key \/ In k (keys m)).
  { intros k m. induction m as [|[k' w] m IH]; simpl.
    - intros [<- | []]. now left.
    - destruct (String.eqb k' key) eqn:Hk; simpl; intuition. }
  induction members as [|[k' w] members IH]; simpl; intros Hnd.
  - constructor; [intros [] | constructor].
  - apply List.NoDup_cons_iff in Hnd as [Hk' Hnd].
    destruct (String.eqb k' key) eqn:Hk; simpl.
    + constructor; assumption.
    + constructor; [| now apply IH].
      intros H. apply Hin in H as [-> | H]; [| contradiction].
      now rewrite String.eqb_refl in Hk.
Qed.

(** In the variables that are sent, limit and offset are the tool's
    parameters when these are given, replacing a variable of the same name
    supplied by the caller; every other variable is the caller's, and no key
    occurs twice. *)
Theorem mergedVariables_lookup (input : RunGraphQLQueryTool_limit.Input) :
  let supplied := default [] (RunGraphQLQueryTool_limit.variables input) in
  let merged := RunGraphQLQueryTool_limit.mergedVariables input in
  lookupKey "limit" merged
  = match RunGraphQLQueryTool_limit.limit input with
    | Some l => Some (JNumber l)
    | None => lookupKey "limit" supplied
    end
  /\ lookupKey "offset" merged
     = match RunGraphQLQueryTool_limit.offset input with
       | Some o => Some (JNumber o)
       | None => lookupKey "offset" supplied
       end
  /\ (forall k, k <> "limit" -> k <> "offset" -> lookupKey k merged = lookupKey k supplied)
  /\ (List.NoDup (keys supplied) -> List.NoDup (keys merged)).
Proof.
  cbv zeta. unfold RunGraphQLQueryTool_limit.mergedVariables.
  destruct input as [q vars l o f]; simpl.
  repeat split.
  - destruct o as [o|], l as [l|];
      repeat (rewrite lookupKey_setKey_cases; cbn [String.eqb Ascii.eqb Bool.eqb]);
      reflexivity.
  - destruct o as [o|], l as [l|];
      repeat (rewrite lookupKey_setKey_cases; cbn [String.eqb Ascii.eqb Bool.eqb]);
      reflexivity.
  - intros k Hl Ho.
    destruct o as [o|], l as [l|]; rewrite ?lookupKey_setKey_cases;
      repeat match goal with
             | |- context [String.eqb ?a k] =>
                 let H := fresh in
                 destruct (String.eqb a k) eqn:H;
                 [apply String.eqb_eq in H; congruence |]
             end; reflexivity.
  - intros Hnd. destruct o as [o|], l as [l|];
      repeat apply setKey_keys_NoDup; assumption.
Qed.

(** ** Responses of the pass-through tools *)

(** The mutation tool and the limit variant of the query tool return the
    response of the backend as it is, whatever its size. *)
Theorem pass_through_response (backend : Backend JSON) (w : World) (data : JSON) :
  (forall input,
     BeginsWithMutation (RunGraphQLMutationTool.mutation input) ->
     backend (length (calls w))
       (mkRequest (RunGraphQLMutationTool.mutation input)
          (option_map JObject (RunGraphQLMutationTool.variables input)))
     = Resolved data ->
     fst (RunGraphQLMutationTool.execute backend input w) = Returned (mkToolResult data))
  /\ (forall input,
        ~ BeginsWithMutation (RunGraphQLQueryTool_limit.query input) ->
        ~ unboundedRequest input ->
        backend (length (calls w))
          (mkRequest (RunGraphQLQueryTool_limit.query input)
             (Some (JObject (RunGraphQLQueryTool_limit.mergedVariables input))))
        = Resolved data ->
        fst (RunGraphQLQueryTool_limit.execute backend input w)
        = Returned (mkToolResult data)).
Proof.
  split.
  - intros input Hb Hr. unfold RunGraphQLMutationTool.execute.
    apply mutation_guard in Hb. rewrite Hb. simpl.
    unfold tryCatch, bind. rewrite makeGqlRequest_run, Hr. reflexivity.
  - intros input Hb Hu Hr. unfold RunGraphQLQueryTool_limit.execute.
    apply mutation_guard_false in Hb. rewrite Hb.
    destruct (negb _ && _) eqn:Hc; [apply unboundedRequest_guard in Hc; contradiction |].
    unfold tryCatch, bind. rewrite makeGqlRequest_run, Hr. reflexivity.
Qed.

(** A query with the override whose response holds 150 rows. *)
Lemma pass_through_response_witness :
  let backend : Backend JSON := fun _ _ => Resolved (JObject [("users", rowsOf 150)]) in
  let input := RunGraphQLQueryTool_limit.mkInput usersQuery None None None (Some true) in
  Oversized (JObject [("users", rowsOf 150)])
  /\ fst (RunGraphQLQueryTool_limit.execute backend input emptyWorld)
     = Returned (mkToolResult (JObject [("users", rowsOf 150)])).
Proof.
  cbv zeta. split.
  - apply oversized_member with "users" (rowsOf 150); [now left |].
    apply oversized_here. unfold rowsOf. rewrite length_map, length_seq. lia.
  - apply (proj2 (pass_through_response _ emptyWorld (JObject [("users", rowsOf 150)]))).
    + apply mutation_guard_false. reflexivity.
    + intros [_ H]. now apply H.
    + reflexivity.
Defined.

(** ** Agreement of the two root-type reports *)

Lemma Selected_functional {A B} (P : A -> Prop) (f : A -> B) (l : list A)
    (out out' : list B) :
  Selected P f l out -> Selected P f l out' -> out = out'.
Proof.
  intros H. revert out'.
  induction H as [| x l out Hx H IH | x l out Hx H IH]; intros out' H';
    inversion H'; subst; try reflexivity; try contradiction;
    [f_equal |]; now apply IH.
Qed.

Lemma Selected_map {A B C} (P : A -> Prop) (f : A -> B) (g : B -> C) (l : list A)
    (out : list B) :
  Selected P f l out -> Selected P (fun x => g (f x)) l (map g out).
Proof. induction 1; simpl; constructor; assumption. Qed.

Lemma Selected_nil_iff {A B} (P : A -> Prop) (f : A -> B) (l : list A) (out : list B) :
  Selected P f l out -> out = [] <-> forall x, In x l -> ~ P x.
Proof.
  induction 1 as [| x l out Hx H IH | x l out Hx H IH].
  - split; [intros _ x [] | reflexivity].
  - split; [discriminate |]. intros Hall. exfalso. apply (Hall x); [now left | assumption].
  - rewrite IH. split.
    + intros Hall y [<- | Hy]; [assumption | now apply Hall].
    + intros Hall y Hy. apply Hall. now right.
Qed.

(** The check tool and the listing tool report the same custom root types,
    in the same order, whatever the field type the listing is restricted to;
    the check tool's flag is set, and the listing carries its warning, exactly
    when the schema has a suspect type. *)
Theorem root_type_reports_agree (schema : IntrospectionSchema)
    (fieldType : option ListRootFieldsTool.FieldType) :
  map CheckUnsupportedRootTypesTool.name
      (CheckUnsupportedRootTypesTool.unsupportedTypes schema)
  = ListRootFieldsTool.unsupportedTypes fieldType schema
  /\ ListRootFieldsTool.unsupportedTypes fieldType schema
     = ListRootFieldsTool.unsupportedTypes None schema
  /\ (getProp (CheckUnsupportedRootTypesTool.result schema) "hasUnsupportedTypes"
      = Some (JBool true)
      <-> exists t, In t (types schema) /\ Suspect schema t)
  /\ (getProp (CheckUnsupportedRootTypesTool.result schema) "hasUnsupportedTypes"
      = Some (JBool false)
      <-> forall t, In t (types schema) -> ~ Suspect schema t)
  /\ (ListRootFieldsTool.warningKeys (ListRootFieldsTool.unsupportedTypes fieldType schema)
      = []
      <-> forall t, In t (types schema) -> ~ Suspect schema t).
Proof.
  pose proof (check_unsupported_selected schema) as Hc.
  pose proof (list_unsupported_selected fieldType schema) as Hl.
  pose proof (list_unsupported_selected None schema) as Hn.
  pose proof (Selected_nil_iff _ _ _ _ Hc) as Hcnil.
  pose proof (Selected_nil_iff _ _ _ _ Hl) as Hlnil.
  assert (Hflag : forall b,
            getProp (CheckUnsupportedRootTypesTool.result schema) "hasUnsupportedTypes"
            = Some (JBool b)
            <-> (0 <? length (CheckUnsupportedRootTypesTool.unsupportedTypes schema))%nat = b).
  { intros b. unfold CheckUnsupportedRootTypesTool.result. simpl.
    split; [intros [= <-]; reflexivity | intros <-; reflexivity]. }
  split; [| split; [| split; [| split]]].
  - apply (Selected_functional (Suspect schema) type_name (types schema)); [| exact Hl].
    apply (Selected_map _ _ CheckUnsupportedRootTypesTool.name) in Hc. exact Hc.
  - now apply (Selected_functional (Suspect schema) type_name (types schema)).
  - rewrite Hflag. split.
    + intros Hlen.
      destruct (CheckUnsupportedRootTypesTool.unsupportedTypes schema) as [|u us] eqn:Hu;
        [discriminate |].
      destruct (proj1 (Selected_In _ _ _ _ Hc u) (or_introl eq_refl)) as (t & Ht & Hs & _).
      now exists t.
    + intros (t & Ht & Hs).
      destruct (CheckUnsupportedRootTypesTool.unsupportedTypes schema) as [|u us] eqn:Hu;
        [| reflexivity].
      exfalso. apply (proj1 Hcnil eq_refl t Ht Hs).
  - rewrite Hflag, <- Hcnil.
    destruct (CheckUnsupportedRootTypesTool.unsupportedTypes schema);
      simpl; split; intros H; first [reflexivity | discriminate H].
  - rewrite <- Hlnil. unfold ListRootFieldsTool.warningKeys.
    destruct (ListRootFieldsTool.unsupportedTypes fieldType schema);
      simpl; split; intros H; first [reflexivity | discriminate H].
Qed.

(** ** The start-up fetch and the schema resource *)

(** The start-up fetch never throws. With a populated cache it does
    nothing; with an empty cache it sends the introspection request once and
    leaves the cache populated when the endpoint answered with a schema, and
    empty otherwise. *)
Theorem initialFetch_never_throws (introspectionQuery : string)
    (endpoint : Backend (option IntrospectionQuery)) (w : World) :
  let run := Server.initialFetch introspectionQuery endpoint w in
  let fetch := mkRequest introspectionQuery None in
  fst run = Returned tt
  /\ (forall schema, introspectionSchema w = Some schema -> snd run = w)
  /\ (forall schema,
        introspectionSchema w = None ->
        endpoint (length (calls w)) fetch
          = Resolved (Some (mkIntrospectionQuery (Some schema))) ->
        snd run = {| calls := (calls w ++ [fetch])%list;
                     introspectionSchema := Some schema |})
  /\ (forall cause,
        introspectionSchema w = None ->
        fetchFailure (endpoint (length (calls w)) fetch) = Some cause ->
        snd run = {| calls := (calls w ++ [fetch])%list; introspectionSchema := None |}).
Proof.
  cbv zeta. unfold Server.initialFetch, tryCatch, bind, ret.
  destruct (introspectionSchema w) as [cached|] eqn:Hc.
  - rewrite (get_cached _ _ w cached Hc). simpl.
    repeat split; try discriminate. 
  - destruct (fetchFailure (endpoint (length (calls w)) (mkRequest introspectionQuery None)))
      as [cause|] eqn:Hf.
    + rewrite (get_fetch_fails _ _ w cause Hc Hf). simpl.
      repeat split; try discriminate.
      intros schema _ He. rewrite He in Hf. discriminate.
    + unfold fetchFailure in Hf.
      destruct (endpoint (length (calls w)) (mkRequest introspectionQuery None))
        as [[[[s|]]|]|[m|m|errs m]] eqn:He; try discriminate Hf.
      rewrite (get_fetch_ok _ _ w s Hc He). simpl.
      repeat split; try discriminate. now intros schema _ [= <-].
Qed.

(** Reading the schema resource from a populated cache returns the text of
    the cached schema and sends nothing; when the fetch fails, the error
    carries the cause behind both prefixes and the cache stays empty. *)
Theorem readSchemaResource_outcomes (introspectionQuery : string)
    (endpoint : Backend (option IntrospectionQuery))
    (stringifySchema : IntrospectionSchema -> string) (w : World) :
  let read := Server.readSchemaResource introspectionQuery endpoint stringifySchema in
  let fetch := mkRequest introspectionQuery None in
  (forall schema,
     introspectionSchema w = Some schema ->
     read w = (Returned [Server.mkResourceContents "hasura:/schema"
                           (stringifySchema (value schema)) "application/json"], w))
  /\ (forall cause,
        introspectionSchema w = None ->
        fetchFailure (endpoint (length (calls w)) fetch) = Some cause ->
        read w
        = (Thrown (Error ("Failed to retrieve GraphQL schema: Failed to get GraphQL schema: "
                          ++ cause)),
           {| calls := (calls w ++ [fetch])%list; introspectionSchema := None |})).
Proof.
  cbv zeta. unfold Server.readSchemaResource, tryCatch, bind, ret, throw. split.
  - intros schema Hc. now rewrite (get_cached _ _ w schema Hc).
  - intros cause Hc Hf. now rewrite (get_fetch_fails _ _ w cause Hc Hf).
Qed.

(** The flaky endpoint: the first read fails, the second returns the text. *)
Lemma readSchemaResource_outcomes_witness :
  let read := Server.readSchemaResource "{ __schema }" flakyEndpoint (fun _ => "{}") in
  let fetch := mkRequest "{ __schema }" None in
  successive 2 read emptyWorld
  = ([Thrown (Error ("Failed to retrieve GraphQL schema: Failed to get GraphQL schema: "
                     ++ "connect ECONNREFUSED"));
      Returned [Server.mkResourceContents "hasura:/schema" "{}" "application/json"]],
     {| calls := [fetch; fetch]; introspectionSchema := Some cachedObject |}).
Proof.
  cbv zeta.
  destruct (readSchemaResource_outcomes "{ __schema }" flakyEndpoint (fun _ => "{}")
              emptyWorld) as [_ Hfail].
  specialize (Hfail "connect ECONNREFUSED" eq_refl eq_refl).
  cbn [successive]. rewrite Hfail. reflexivity.
Defined.

(** ** The health check *)


(** ** describe_table: the look-ups *)

Lemma typeOf_run (r : option DescribeTableToolExecute.TypeQueryResult) (w : World) :
  DescribeTableToolExecute.typeOf r w
  = (match r with
     | Some r => Returned (DescribeTableToolExecute.type__ r)
     | None => Thrown (TypeError "Cannot read properties of undefined (reading '__type')")
     end, w).
Proof. destruct r; reflexivity. Qed.

Lemma lookupTable_first (toUpperCase : string -> string)
    (backend : Backend (option DescribeTableToolExecute.TypeQueryResult))
    (tableName : string) (w : World) (t : DescribeTableToolExecute.TableType) :
  let first := mkRequest DescribeTableToolExecute.tableTypeQuery
                 (DescribeTableToolExecute.typeNameVariables tableName) in
  backend (length (calls w)) first
    = Resolved (Some (DescribeTableToolExecute.mkTypeQueryResult (Some t))) ->
  DescribeTableToolExecute.lookupTable toUpperCase backend tableName w
  = (Returned t, afterRequest w first).
Proof.
  cbv zeta. intros He. unfold DescribeTableToolExecute.lookupTable, bind.
  rewrite makeGqlRequest_run, He. reflexivity.
Qed.

(** The table is looked up under the name as given and, only when that
    yields no type, once more under the name with its first character in
    upper case; when neither yields a type the tool throws its not-found
    error after exactly these two requests. For a name whose first character
    is its own upper case the second request repeats the first. *)
Theorem describe_table_lookup (toUpperCase : string -> string)
    (backend : Backend (option DescribeTableToolExecute.TypeQueryResult))
    (tableName : string) (w : World) :
  let look := DescribeTableToolExecute.lookupTable toUpperCase backend tableName in
  let ask name := mkRequest DescribeTableToolExecute.tableTypeQuery
                    (DescribeTableToolExecute.typeNameVariables name) in
  let first := ask tableName in
  let second := ask (DescribeTableToolExecute.pascalCaseName toUpperCase tableName) in
  let answer t := Resolved (Some (DescribeTableToolExecute.mkTypeQueryResult t)) in
  (forall t,
     backend (length (calls w)) first = answer (Some t) ->
     look w = (Returned t, afterRequest w first))
  /\ (backend (length (calls w)) first = answer None ->
      (forall t,
         backend (S (length (calls w))) second = answer (Some t) ->
         look w = (Returned t, afterRequest (afterRequest w first) second))
      /\ (backend (S (length (calls w))) second = answer None ->
          look w = (Thrown (Error (DescribeTableToolExecute.notFoundMessage tableName)),
                    afterRequest (afterRequest w first) second)))
  /\ (toUpperCase (charAt0 tableName) = charAt0 tableName -> second = first).
Proof.
  cbv zeta. unfold DescribeTableToolExecute.lookupTable.
  assert (Hlen : forall r, length (calls (afterRequest w r)) = S (length (calls w))).
  { intros r. unfold afterRequest. simpl. rewrite length_app. simpl. lia. }
  split; [| split].
  - intros t He. now apply lookupTable_first.
  - intros He. split.
    + intros t He2. unfold bind. rewrite makeGqlRequest_run, He. simpl.
      rewrite makeGqlRequest_run, Hlen, He2. reflexivity.
    + intros He2. unfold bind. rewrite makeGqlRequest_run, He. simpl.
      rewrite makeGqlRequest_run, Hlen, He2. reflexivity.
  - intros Hup. unfold DescribeTableToolExecute.pascalCaseName. rewrite Hup.
    destruct tableName; reflexivity.
Qed.

(** A server that knows the type Users only. *)
Lemma describe_table_lookup_witness :
  let known := DescribeTableToolExecute.mkTableType None (Some []) in
  let backend : Backend (option DescribeTableToolExecute.TypeQueryResult) :=
    fun n _ => Resolved (Some (DescribeTableToolExecute.mkTypeQueryResult
                                 (if (n =? 1)%nat then Some known else None))) in
  let ask name := mkRequest DescribeTableToolExecute.tableTypeQuery
                    (DescribeTableToolExecute.typeNameVariables name) in
  DescribeTableToolExecute.lookupTable (fun _ => "U") backend "users" emptyWorld
  = (Returned known,
     {| calls := [ask "users"; ask "Users"]; introspectionSchema := None |}).
Proof.
  cbv zeta.
  destruct (describe_table_lookup (fun _ => "U")
              (fun n _ => Resolved (Some (DescribeTableToolExecute.mkTypeQueryResult
                                       (if (n =? 1)%nat
                                        then Some (DescribeTableToolExecute.mkTableType
                                                     None (Some []))
                                        else None))))
              "users" emptyWorld) as (_ & Hsecond & _).
  destruct (Hsecond eq_refl) as [Hfound _].
  rewrite (Hfound _ eq_refl). reflexivity.
Defined.

Lemma columnsInfo_total (fields : list IntrospectionField) :
  DescribeTableTool.columnsInfo fields
  = Returned (map (fun f =>
                     DescribeTableTool.mkColumnInfo (field_name f)
                       (DescribeTableTool.fullTypeString
                          (DescribeTableTool.unwrap (field_type f)))
                       (DescribeTableTool.orNull (field_description f))
                       (DescribeTableTool.argsOrNull (field_args f)))
                  fields).
Proof.
  unfold DescribeTableTool.columnsInfo.
  induction fields as [|f fields IH]; [reflexivity |].
  cbn [mapO]. rewrite IH. reflexivity.
Qed.

(** describe_table awaits the schema before anything else, though it does
    not read it: when the schema cannot be fetched the tool throws that
    failure and asks for no type. With a schema in the cache, a type that has
    no field list (a scalar, an enum, an input type) makes the tool throw a
    TypeError instead of a description; a type with fields is described with
    one column for every field and no other column. *)
Theorem describe_table_outcomes (toUpperCase : string -> string)
    (sortByName : list DescribeTableTool.ColumnInfo -> list DescribeTableTool.ColumnInfo)
    (introspectionQuery : string) (endpoint : Backend (option IntrospectionQuery))
    (backend : Backend (option DescribeTableToolExecute.TypeQueryResult))
    (input : DescribeTableToolExecute.Input) (w : World) :
  (forall l, Permutation (sortByName l) l) ->
  let run := DescribeTableToolExecute.execute toUpperCase sortByName backend
               (Index.getIntrospectionSchema introspectionQuery endpoint) input w in
  let first := mkRequest DescribeTableToolExecute.tableTypeQuery
                 (DescribeTableToolExecute.typeNameVariables
                    (DescribeTableToolExecute.tableName input)) in
  let answer t := Resolved (Some (DescribeTableToolExecute.mkTypeQueryResult (Some t))) in
  (forall cause,
     introspectionSchema w = None ->
     fetchFailure (endpoint (length (calls w)) (mkRequest introspectionQuery None))
       = Some cause ->
     run = (Thrown (Error ("Failed to get GraphQL schema: " ++ cause)),
            {| calls := (calls w ++ [mkRequest introspectionQuery None])%list;
               introspectionSchema := None |}))
  /\ (forall schema description,
        introspectionSchema w = Some schema ->
        backend (length (calls w)) first
          = answer (DescribeTableToolExecute.mkTableType description None) ->
        run = (Thrown (TypeError "Cannot read properties of null (reading 'map')"),
               afterRequest w first))
  /\ (forall schema description fields,
        introspectionSchema w = Some schema ->
        backend (length (calls w)) first
          = answer (DescribeTableToolExecute.mkTableType description (Some fields)) ->
        exists columns,
          run = (Returned
                   (mkToolResult
                      (JObject
                         [("table",
                           JObject
                             [("name", JString (DescribeTableToolExecute.tableName input));
                              ("schema", JString (DescribeTableToolExecute.schemaName input));
                              ("description", stringOrNull description);
                              ("columns", JArray columns)])])),
                 afterRequest w first)
          /\ Permutation (map (fun c => getProp c "name") columns)
               (map (fun f => Some (JString (field_name f))) fields)).
Proof.
  intros Hperm. cbv zeta. unfold DescribeTableToolExecute.execute.
  split; [| split].
  - intros cause Hc Hf. unfold tryCatch, bind at 1.
    now rewrite (get_fetch_fails _ _ w cause Hc Hf).
  - intros schema description Hc He. unfold tryCatch, bind at 1.
    rewrite (get_cached _ _ w schema Hc).
    unfold bind at 1. rewrite (lookupTable_first toUpperCase backend _ w _ He).
    reflexivity.
  - intros schema description fields Hc He. unfold tryCatch, bind at 1.
    rewrite (get_cached _ _ w schema Hc).
    unfold bind at 1. rewrite (lookupTable_first toUpperCase backend _ w _ He).
    unfold bind, liftO, DescribeTableToolExecute.columnsOf. simpl.
    rewrite columnsInfo_total. simpl. eexists. split; [reflexivity |].
    rewrite map_map.
    eapply Permutation_trans; [apply Permutation_map, Hperm |].
    rewrite map_map. simpl. reflexivity.
Qed.

(** An enum type asked for as a table, with the schema in the cache. *)
Lemma describe_table_outcomes_witness :
  let backend : Backend (option DescribeTableToolExecute.TypeQueryResult) :=
    fun _ _ => Resolved (Some (DescribeTableToolExecute.mkTypeQueryResult
                                 (Some (DescribeTableToolExecute.mkTableType None None)))) in
  let w := {| calls := []; introspectionSchema := Some cachedObject |} in
  (forall l : list DescribeTableTool.ColumnInfo, Permutation ((fun l => l) l) l)
  /\ fst (DescribeTableToolExecute.execute (fun s => s) (fun l => l) backend
            (Index.getIntrospectionSchema "{ __schema }" flakyEndpoint)
            (DescribeTableToolExecute.mkInput "status_enum" "public") w)
     = Thrown (TypeError "Cannot read properties of null (reading 'map')").
Proof.
  cbv zeta.
  assert (Hperm : forall l : list DescribeTableTool.ColumnInfo,
            Permutation ((fun l => l) l) l) by (intros l; reflexivity).
  split; [exact Hperm |].
  destruct (describe_table_outcomes (fun s => s) (fun l => l) "{ __schema }" flakyEndpoint
              (fun _ _ => Resolved (Some (DescribeTableToolExecute.mkTypeQueryResult
                                       (Some (DescribeTableToolExecute.mkTableType
                                                None None)))))
              (DescribeTableToolExecute.mkInput "status_enum" "public")
              {| calls := []; introspectionSchema := Some cachedObject |} Hperm)
    as (_ & Hnull & _).
  rewrite (Hnull cachedObject None eq_refl eq_refl). reflexivity.
Defined.

(** ** list_root_fields: counts and pages *)

Lemma slice_window {A} (offset limit : Z) (l : list A) :
  (0 <= offset)%Z -> (0 <= limit)%Z ->
  slice offset (offset + limit) l = take (Z.to_nat limit) (drop (Z.to_nat offset) l).
Proof.
  intros Ho Hl. unfold slice, sliceIndex.
  destruct (offset <? 0)%Z eqn:H1; [apply Z.ltb_lt in H1; lia |].
  destruct (offset + limit <? 0)%Z eqn:H2; [apply Z.ltb_lt in H2; lia |].
  rewrite Z2Nat.inj_add by lia.
  set (a := Z.to_nat offset). set (b := Z.to_nat limit). set (n := length l).
  destruct (Nat.le_gt_cases n a) as [Hge | Hlt].
  - rewrite (Nat.min_r a n) by lia. rewrite !drop_ge by (fold n; lia).
    now rewrite !take_nil.
  - rewrite (Nat.min_l a n) by lia.
    assert (Hd : length (drop a l) = n - a) by (rewrite length_drop; reflexivity).
    destruct (Nat.le_gt_cases (a + b) n) as [Hin | Hout].
    + rewrite Nat.min_l by lia. f_equal. lia.
    + rewrite Nat.min_r by lia. rewrite !take_ge by lia. reflexivity.
Qed.

Lemma take_then_take {A} (a b : nat) (l : list A) :
  (take a l ++ take b (drop a l))%list = take (a + b) l.
Proof.
  revert l. induction a as [|a IH]; intros l; [reflexivity |].
  destruct l as [|x l]; simpl; [now rewrite take_nil |]. now rewrite IH.
Qed.

Lemma applyFilter_sub (filter : option string)
    (l : list ListRootFieldsToolExecute.FieldInfo) :
  length (ListRootFieldsToolExecute.applyFilter filter l) <= length l
  /\ (forall f, In f (ListRootFieldsToolExecute.applyFilter filter l) -> In f l)
  /\ (filter = None \/ filter = Some "" ->
      ListRootFieldsToolExecute.applyFilter filter l = l).
Proof.
  unfold ListRootFieldsToolExecute.applyFilter.
  destruct filter as [[|c r]|]; repeat split; auto.
  - apply filter_length_le.
  - intros f Hf. now apply filter_In in Hf.
  - intros [H | H]; discriminate.
Qed.

(** For a non-negative offset and a positive limit: the filtered count
    never exceeds the total, and equals it without a filter; the page holds
    the fields from position offset on, at most limit of them, so that the
    returned count is the smaller of limit and what is left after offset;
    every returned field is a field of a selected root type; and a page
    followed by the next page is the page of the joint size. *)
Theorem list_root_fields_pages
    (sortByName : list ListRootFieldsToolExecute.FieldInfo
                  -> list ListRootFieldsToolExecute.FieldInfo)
    (schema : IntrospectionSchema) (fieldType : option ListRootFieldsTool.FieldType)
    (filter : option string) (limit offset : Z) :
  (forall l, Permutation (sortByName l) l) ->
  (0 <= offset)%Z -> (0 < limit)%Z ->
  let pageAt offset limit :=
    ListRootFieldsToolExecute.page sortByName
      (ListRootFieldsToolExecute.mkInput fieldType filter (Some limit) (Some offset))
      schema in
  let p := pageAt offset limit in
  ListRootFieldsToolExecute.totalCount p
    = length (ListRootFieldsToolExecute.fields fieldType schema)
  /\ ListRootFieldsToolExecute.filteredCount p <= ListRootFieldsToolExecute.totalCount p
  /\ (filter = None \/ filter = Some "" ->
      ListRootFieldsToolExecute.filteredCount p = ListRootFieldsToolExecute.totalCount p)
  /\ ListRootFieldsToolExecute.returnedCount p
     = Nat.min (Z.to_nat limit)
         (ListRootFieldsToolExecute.filteredCount p - Z.to_nat offset)
  /\ ListRootFieldsToolExecute.returnedCount p
     = length (ListRootFieldsToolExecute.page_fields p)
  /\ (forall f,
        In f (ListRootFieldsToolExecute.page_fields p) ->
        exists field,
          In field (ListRootFieldsToolExecute.fields fieldType schema)
          /\ f = ListRootFieldsToolExecute.fieldInfoOf field)
  /\ (forall limit',
        (0 < limit')%Z ->
        (ListRootFieldsToolExecute.page_fields p
         ++ ListRootFieldsToolExecute.page_fields (pageAt (offset + limit)%Z limit'))%list
        = ListRootFieldsToolExecute.page_fields (pageAt offset (limit + limit')%Z)).
Proof.
  intros Hperm Ho Hl. cbv zeta. unfold ListRootFieldsToolExecute.page. simpl.
  set (all := map ListRootFieldsToolExecute.fieldInfoOf
                (ListRootFieldsToolExecute.fields fieldType schema)).
  set (kept := ListRootFieldsToolExecute.applyFilter filter all).
  destruct (applyFilter_sub filter all) as (Hlen & Hin & Hnone). fold kept in Hlen, Hin, Hnone.
  assert (Hsorted : length (sortByName kept) = length kept)
    by (apply Permutation_length, Hperm).
  rewrite !slice_window by lia.
  split; [unfold all; now rewrite length_map |].
  split; [rewrite Hsorted; unfold all in *; now rewrite length_map in * |].
  split; [intros Hf; rewrite Hsorted, (Hnone Hf); unfold all; now rewrite !length_map |].
  split; [now rewrite length_take, length_drop |].
  split; [reflexivity |]. split.
  - intros f Hf.
    assert (Hk : In f kept).
    { apply (Permutation_in f (Hperm kept)).
      apply list_elem_of_In. apply list_elem_of_In in Hf.
      eapply subseteq_drop, subseteq_take, Hf. }
    apply Hin in Hk. unfold all in Hk. apply in_map_iff in Hk as (field & <- & Hfield).
    now exists field.
  - intros limit' Hl'. rewrite !slice_window by lia.
    rewrite !Z2Nat.inj_add by lia. rewrite <- drop_drop. apply take_then_take.
Qed.

(** Two root fields, pages of one. *)
Lemma list_root_fields_pages_witness :
  let pageAt offset limit :=
    ListRootFieldsToolExecute.page (fun l => l)
      (ListRootFieldsToolExecute.mkInput None None (Some limit) (Some offset))
      plainSchema in
  (forall l : list ListRootFieldsToolExecute.FieldInfo, Permutation ((fun l => l) l) l)
  /\ ListRootFieldsToolExecute.totalCount (pageAt 0%Z 1%Z) = 2
  /\ ListRootFieldsToolExecute.returnedCount (pageAt 0%Z 1%Z) = 1
  /\ (ListRootFieldsToolExecute.page_fields (pageAt 0%Z 1%Z)
      ++ ListRootFieldsToolExecute.page_fields (pageAt 1%Z 1%Z))%list
     = ListRootFieldsToolExecute.page_fields (pageAt 0%Z 2%Z).
Proof.
  cbv zeta.
  assert (Hperm : forall l : list ListRootFieldsToolExecute.FieldInfo,
            Permutation ((fun l => l) l) l) by (intros l; reflexivity).
  split; [exact Hperm |].
  destruct (list_root_fields_pages (fun l => l) plainSchema None None 1%Z 0%Z Hperm)
    as (Htotal & _ & _ & Hret & _ & _ & Hpages); [lia | lia |].
  cbv zeta in *. split; [rewrite Htotal; reflexivity |].
  split; [rewrite Hret; reflexivity |].
  exact (Hpages 1%Z ltac:(lia)).
Defined.

(** ** preview_table_data: unknown tables and row counts *)

Lemma findTable_None (name : string) (schema : IntrospectionSchema) :
  PreviewTableDataTool.findTable name schema = None
  <-> forall t, In t (types schema) -> type_name t = name -> type_kind t <> OBJECT.
Proof.
  unfold PreviewTableDataTool.findTable. split.
  - intros Hfind t Ht Hname Hkind.
    pose proof (find_none _ _ Hfind t Ht) as Hf. simpl in Hf.
    apply andb_false_iff in Hf as [Hf | Hf].
    + apply String.eqb_neq in Hf. contradiction.
    + rewrite Hkind in Hf. discriminate.
  - intros Hall. destruct (List.find _ (types schema)) as [t|] eqn:Hfind; [| reflexivity].
    apply find_some in Hfind as [Ht Hf]. apply andb_true_iff in Hf as [Hn Hk].
    apply String.eqb_eq in Hn. apply TypeKind_eqb_eq in Hk.
    exfalso. now apply (Hall t Ht Hn).
Qed.

(** With the schema in the cache, both variants of the preview tool reject
    a name that is not the name of an OBJECT type of the schema (an unknown
    name, or the name of a scalar, enum or input type), and send no request. *)
Theorem preview_unknown_table (backend : Backend JSON) (introspectionQuery : string)
    (endpoint : Backend (option IntrospectionQuery))
    (schema : Obj IntrospectionSchema) (name : string) (limit : Z)
    (limit' offset' : option Z) (w : World) :
  introspectionSchema w = Some schema ->
  (forall t, In t (types (value schema)) -> type_name t = name -> type_kind t <> OBJECT) ->
  let get := Index.getIntrospectionSchema introspectionQuery endpoint in
  let notFound := Error ("Table (Object type) '" ++ name ++ "' not found in schema.") in
  PreviewTableDataTool.execute backend get (PreviewTableDataTool.mkInput name limit) w
  = (Thrown notFound, w)
  /\ PreviewTableDataTool_offset.execute backend get
       (PreviewTableDataTool_offset.mkInput name limit' offset') w
     = (Thrown notFound, w).
Proof.
  intros Hc Hall. cbv zeta. apply findTable_None in Hall.
  split.
  - unfold PreviewTableDataTool.execute, tryCatch, bind at 1.
    rewrite (get_cached _ _ w schema Hc). simpl. rewrite Hall. reflexivity.
  - unfold PreviewTableDataTool_offset.execute, tryCatch, bind at 1.
    rewrite (get_cached _ _ w schema Hc). simpl. rewrite Hall. reflexivity.
Qed.

(** The scalar type Int asked for as a table. *)
Lemma preview_unknown_table_witness :
  fst (PreviewTableDataTool.execute echoBackend
         (Index.getIntrospectionSchema "{ __schema }" flakyEndpoint)
         (PreviewTableDataTool.mkInput "Int" 5%Z) tablesWorld)
  = Thrown (Error "Table (Object type) 'Int' not found in schema.").
Proof.
  assert (H : forall t,
            In t [postsTable; linksTable; mkType SCALAR "Int" None] ->
            type_name t = "Int" -> type_kind t <> OBJECT).
  { intros t [<- | [<- | [<- | []]]]; simpl; intros Hn; discriminate. }
  destruct (preview_unknown_table echoBackend "{ __schema }" flakyEndpoint
              (mkObj 2 (mkSchema (Some (mkNamed "query_root")) None None
                          [postsTable; linksTable; mkType SCALAR "Int" None]))
              "Int" 5%Z None None tablesWorld eq_refl H) as [Hsrc _].
  now rewrite Hsrc.
Defined.

(** In the variant with an offset, for a known table whose fields project:
    one request is sent, with limit and offset (5 and 0 when not given) as
    its variables; the response is returned unchanged under the key data, and
    returnedCount is the number of rows found under the table's name in the
    response, 0 when there is no array under that name. A null response makes
    the tool throw after the request was sent. *)
Theorem preview_offset_reports_rows (backend : Backend JSON) (introspectionQuery : string)
    (endpoint : Backend (option IntrospectionQuery))
    (schema : Obj IntrospectionSchema) (input : PreviewTableDataTool_offset.Input)
    (tableType : IntrospectionType) (fields : list string) (w : World) :
  introspectionSchema w = Some schema ->
  PreviewTableDataTool.findTable (PreviewTableDataTool_offset.tableName input) (value schema)
    = Some tableType ->
  PreviewTableDataTool.scalarFields tableType = Returned fields ->
  let limit := default 5%Z (PreviewTableDataTool_offset.limit input) in
  let offset := default 0%Z (PreviewTableDataTool_offset.offset input) in
  let name := PreviewTableDataTool_offset.tableName input in
  let request :=
    mkRequest (PreviewTableDataTool_offset.previewQuery name fields)
      (Some (JObject [("limit", JNumber limit); ("offset", JNumber offset)])) in
  let run := PreviewTableDataTool_offset.execute backend
               (Index.getIntrospectionSchema introspectionQuery endpoint) input w in
  snd run = afterRequest w request
  /\ (forall members,
        backend (length (calls w)) request = Resolved (JObject members) ->
        exists count,
          fst run
          = Returned (mkToolResult
                        (JObject [("data", JObject members);
                                  ("returnedCount", JNumber (Z.of_nat count));
                                  ("limit", JNumber limit);
                                  ("offset", JNumber offset)]))
          /\ (forall rows, lookupKey name members = Some (JArray rows) ->
                count = length rows)
          /\ ((forall rows, lookupKey name members <> Some (JArray rows)) -> count = 0))
  /\ (backend (length (calls w)) request = Resolved JNull ->
      exists msg, fst run = Thrown (TypeError msg)).
Proof.
  intros Hc Hfind Hfields limit offset name request run.
  assert (Hrun : run
    = (match normalised (backend (length (calls w)) request) with
       | Returned data =>
           match PreviewTableDataTool_offset.returnedCount data name with
           | Returned count =>
               Returned (mkToolResult
                           (PreviewTableDataTool_offset.response data count limit offset))
           | Thrown e => Thrown e
           end
       | Thrown e => Thrown e
       end, afterRequest w request)).
  { unfold run, PreviewTableDataTool_offset.execute, tryCatch, bind at 1.
    rewrite (get_cached _ _ w schema Hc). simpl. rewrite Hfind.
    unfold bind at 1, liftO. rewrite Hfields.
    unfold bind at 1. rewrite makeGqlRequest_run.
    fold name limit offset request.
    destruct (normalised _) as [d|e]; [| reflexivity].
    unfold bind, ret.
    destruct (PreviewTableDataTool_offset.returnedCount d name); reflexivity. }
  rewrite Hrun. clear Hrun run. split; [reflexivity |]. split.
  - intros members ->. simpl. eexists. split; [reflexivity |]. split.
    + intros rows ->. reflexivity.
    + intros Hno.
      destruct (lookupKey name members) as [[| | | |rows|]|]; try reflexivity.
      exfalso. now apply (Hno rows).
  - intros ->. simpl. eexists. reflexivity.
Qed.

(** Three rows of posts, asked for without limit and offset. *)
Lemma preview_offset_reports_rows_witness :
  fst (PreviewTableDataTool_offset.execute postsBackend
         (Index.getIntrospectionSchema "{ __schema }" flakyEndpoint)
         (PreviewTableDataTool_offset.mkInput "posts" None None) tablesWorld)
  = Returned (mkToolResult
                (JObject [("data", JObject [("posts", rowsOf 3)]);
                          ("returnedCount", JNumber 3);
                          ("limit", JNumber 5);
                          ("offset", JNumber 0)])).
Proof.
  destruct (preview_offset_reports_rows postsBackend "{ __schema }" flakyEndpoint
              (mkObj 2 (mkSchema (Some (mkNamed "query_root")) None None
                          [postsTable; linksTable; mkType SCALAR "Int" None]))
              (PreviewTableDataTool_offset.mkInput "posts" None None)
              postsTable ["id"; "status"] tablesWorld eq_refl eq_refl eq_refl)
    as (_ & Hrows & _).
  destruct (Hrows [("posts", rowsOf 3)] eq_refl) as (count & Hrun & Hcount & _).
  rewrite Hrun. now rewrite (Hcount (map (fun i => JNumber (Z.of_nat i)) (seq 0 3)) eq_refl).
Defined.
